(** * A shallow embedding of the Bedrock gateway services

    Two programs of the repository are modelled here:

    - the Go [bedrock-service] (model catalogue, availability prober,
      request formatter, fallback invoker and its HTTP handler), and its
      first, single-model version;
    - the Node [cache-service] (the memoization layer in front of it).

    Go values are modelled as the code has them: [string] for Go strings,
    [Z] for [int], [Q] for a finite [float64] (every finite double is a
    rational, and JSON decoding yields no other), records for structs.
    A decoded JSON document is a [JSON] tree whose objects are finite maps.
    Calls that leave the process (the Bedrock runtime, [encoding/json],
    Redis, axios, MD5) are parameters of the sections that use them. *)

From Stdlib Require Import String Ascii ZArith QArith List Bool Lia.
From stdpp Require Import gmap strings list.

Set Default Proof Using "Type".

(** ** Values shared by both services *)

(** What [json.Unmarshal] into [interface{}] and [JSON.parse] produce. *)
#[warnings="-register-all"]
Inductive JSON : Type :=
  | JNull
  | JBool (b : bool)
  | JNumber (q : Q)
  | JString (s : string)
  | JArray (items : list JSON)
  | JObject (fields : gmap string JSON).

(** A Go [(value, error)] pair, or a JavaScript call that returns or throws. *)
Inductive result (E A : Type) : Type :=
  | Ok (a : A)
  | Err (e : E).
Arguments Ok {E A} a.
Arguments Err {E A} e.

Definition is_ok {E A} (r : result E A) : bool :=
  match r with Ok _ => true | Err _ => false end.

(** ** Go's [strings] package *)

Module GoStrings.

(** [strings.Contains(s, substr)]: [substr] occurs in [s] at some offset. *)
Fixpoint Contains (s substr : string) : bool :=
  if String.prefix substr s then true
  else match s with
       | EmptyString => false
       | String _ rest => Contains rest substr
       end.

(** [strings.ToLower] on the ASCII letters; on an ASCII-only string this
    is all that [strings.ToLower] does. *)
Definition lower_ascii (c : ascii) : ascii :=
  let n := nat_of_ascii c in
  if (65 <=? n)%nat && (n <=? 90)%nat then ascii_of_nat (n + 32) else c.

Fixpoint ToLowerASCII (s : string) : string :=
  match s with
  | EmptyString => EmptyString
  | String c rest => String (lower_ascii c) (ToLowerASCII rest)
  end.

End GoStrings.

(** ** MD5, as [crypto.createHash('md5')] computes it (RFC 1321) *)

Module MD5.
Local Open Scope Z_scope.

Definition w32 (x : Z) : Z := x mod 2 ^ 32.

Definition rotl (x c : Z) : Z :=
  w32 (Z.lor (Z.shiftl x c) (Z.shiftr x (32 - c))).

Definition K : list Z :=
  [ 0xd76aa478; 0xe8c7b756; 0x242070db; 0xc1bdceee;
    0xf57c0faf; 0x4787c62a; 0xa8304613; 0xfd469501;
    0x698098d8; 0x8b44f7af; 0xffff5bb1; 0x895cd7be;
    0x6b901122; 0xfd987193; 0xa679438e; 0x49b40821;
    0xf61e2562; 0xc040b340; 0x265e5a51; 0xe9b6c7aa;
    0xd62f105d; 0x02441453; 0xd8a1e681; 0xe7d3fbc8;
    0x21e1cde6; 0xc33707d6; 0xf4d50d87; 0x455a14ed;
    0xa9e3e905; 0xfcefa3f8; 0x676f02d9; 0x8d2a4c8a;
    0xfffa3942; 0x8771f681; 0x6d9d6122; 0xfde5380c;
    0xa4beea44; 0x4bdecfa9; 0xf6bb4b60; 0xbebfbc70;
    0x289b7ec6; 0xeaa127fa; 0xd4ef3085; 0x04881d05;
    0xd9d4d039; 0xe6db99e5; 0x1fa27cf8; 0xc4ac5665;
    0xf4292244; 0x432aff97; 0xab9423a7; 0xfc93a039;
    0x655b59c3; 0x8f0ccc92; 0xffeff47d; 0x85845dd1;
    0x6fa87e4f; 0xfe2ce6e0; 0xa3014314; 0x4e0811a1;
    0xf7537e82; 0xbd3af235; 0x2ad7d2bb; 0xeb86d391 ].

Definition S : list Z :=
  [ 7; 12; 17; 22; 7; 12; 17; 22; 7; 12; 17; 22; 7; 12; 17; 22;
    5; 9; 14; 20; 5; 9; 14; 20; 5; 9; 14; 20; 5; 9; 14; 20;
    4; 11; 16; 23; 4; 11; 16; 23; 4; 11; 16; 23; 4; 11; 16; 23;
    6; 10; 15; 21; 6; 10; 15; 21; 6; 10; 15; 21; 6; 10; 15; 21 ].

Definition not32 (x : Z) : Z := Z.lxor x 0xffffffff.

(** One of the 64 operations on the state [(A, B, C, D)]. *)
Definition step (M : list Z) (st : Z * Z * Z * Z) (i : nat) : Z * Z * Z * Z :=
  let '(A, B, C, D) := st in
  let zi := Z.of_nat i in
  let '(F, g) :=
    if zi <? 16 then (Z.lor (Z.land B C) (Z.land (not32 B) D), zi)
    else if zi <? 32 then (Z.lor (Z.land D B) (Z.land (not32 D) C), (5 * zi + 1) mod 16)
    else if zi <? 48 then (Z.lxor (Z.lxor B C) D, (3 * zi + 5) mod 16)
    else (Z.lxor C (Z.lor B (not32 D)), (7 * zi) mod 16) in
  let F := w32 (F + A + nth i K 0 + nth (Z.to_nat g) M 0) in
  (D, w32 (B + rotl F (nth i S 0)), B, C).

(** Little-endian 32-bit words of a byte list. *)
Fixpoint words (bytes : list Z) (n : nat) : list Z :=
  match n, bytes with
  | Datatypes.S n, b0 :: b1 :: b2 :: b3 :: rest =>
      (b0 + 256 * b1 + 65536 * b2 + 16777216 * b3) :: words rest n
  | _, _ => []
  end.

Definition chunk (st : Z * Z * Z * Z) (block : list Z) : Z * Z * Z * Z :=
  let '(a0, b0, c0, d0) := st in
  let '(A, B, C, D) := fold_left (step (words block 16)) (seq 0 64) st in
  (w32 (a0 + A), w32 (b0 + B), w32 (c0 + C), w32 (d0 + D)).

Fixpoint chunks (n : nat) (bytes : list Z) (st : Z * Z * Z * Z) : Z * Z * Z * Z :=
  match n with
  | O => st
  | Datatypes.S n => chunks n (drop 64 bytes) (chunk st (take 64 bytes))
  end.

Definition le_bytes (n : nat) (x : Z) : list Z :=
  map (fun k => Z.shiftr x (8 * Z.of_nat k) mod 256) (seq 0 n).

Definition pad (bytes : list Z) : list Z :=
  let len := Z.of_nat (length bytes) in
  let zeros := Z.to_nat ((55 - len) mod 64) in
  bytes ++ [0x80] ++ repeat 0 zeros ++ le_bytes 8 (8 * len).

Definition digest (bytes : list Z) : list Z :=
  let padded := pad bytes in
  let '(a, b, c, d) :=
    chunks (length padded / 64) padded (0x67452301, 0xefcdab89, 0x98badcfe, 0x10325476) in
  le_bytes 4 a ++ le_bytes 4 b ++ le_bytes 4 c ++ le_bytes 4 d.

Definition hex_digit (x : Z) : ascii :=
  ascii_of_nat (Z.to_nat (if x <? 10 then 48 + x else 87 + x)).

Fixpoint hex (bytes : list Z) : string :=
  match bytes with
  | [] => EmptyString
  | b :: rest => String (hex_digit (b / 16)) (String (hex_digit (b mod 16)) (hex rest))
  end.

Definition bytes_of (s : string) : list Z :=
  map (fun c => Z.of_nat (nat_of_ascii c)) (list_ascii_of_string s).

(** [crypto.createHash('md5').update(s).digest('hex')]. *)
Definition md5_hex (s : string) : string := hex (digest (bytes_of s)).

End MD5.

Arguments MD5.md5_hex : simpl never.

(** ** bedrock-service, version 3 (the fallback invoker) *)

Module Bedrock.
Import GoStrings.

Record GenerateRequest := {
  Prompt : string;
  MaxTokens : Z;
  Temperature : Q;
  Model : string
}.

(** [TokenCount] is never set by the service and is omitted from the
    encoded response ([omitempty]). *)
Record GenerateResponse := {
  Response : string;
  ModelUsed : string
}.

Record ModelInfo := {
  ID : string;
  Name : string;
  Available : bool;
  MessageAPI : bool
}.

(** One [InvokeModel] call: the model id and the request bytes. *)
Record InvokeModelInput := {
  ModelId : string;
  Body : string
}.

(** The [client] field stands for the SDK handle: what the model keeps
    of it is the list of calls made through it, oldest first. *)
Record BedrockClient := {
  client : list InvokeModelInput;
  availableModels : list ModelInfo
}.

Definition mkModel (id name : string) (messageAPI : bool) : ModelInfo :=
  {| ID := id; Name := name; Available := false; MessageAPI := messageAPI |}.

(** The catalogue literal of [NewBedrockClient]; [Available] starts at
    Go's zero value. *)
Definition catalogue : list ModelInfo :=
  [ mkModel "anthropic.claude-3-5-sonnet-20241022-v2:0" "Claude 3.5 Sonnet v2" true;
    mkModel "anthropic.claude-3-5-sonnet-20240620-v1:0" "Claude 3.5 Sonnet" true;
    mkModel "anthropic.claude-3-5-haiku-20241022-v1:0" "Claude 3.5 Haiku" true;
    mkModel "anthropic.claude-3-sonnet-20240229-v1:0" "Claude 3 Sonnet" true;
    mkModel "anthropic.claude-3-haiku-20240307-v1:0" "Claude 3 Haiku" true;
    mkModel "anthropic.claude-3-opus-20240229-v1:0" "Claude 3 Opus" true;
    mkModel "anthropic.claude-v2:1" "Claude v2.1" false;
    mkModel "anthropic.claude-v2" "Claude v2" false;
    mkModel "anthropic.claude-instant-v1" "Claude Instant" false ].

(** [config.LoadDefaultConfig] either fails with a message or yields a
    configuration; only the failure is observable in [NewBedrockClient]. *)
Definition NewBedrockClient (loadDefaultConfig : result string unit)
  : result string BedrockClient :=
  match loadDefaultConfig with
  | Err err => Err ("unable to load SDK config: " +:+ err)
  | Ok _ => Ok {| client := []; availableModels := catalogue |}
  end.

(** *** Candidate selection (lines 172-199 of [GenerateText]) *)

Section Selection.
(** [strings.ToLower]; any function on strings will do for what is
    proved, [ToLowerASCII] is the instance used on examples. *)
Variable ToLower : string -> string.

(** The condition of the first loop. *)
Definition isPreferred (preferredModel : string) (model : ModelInfo) : bool :=
  Available model &&
  (Contains (ToLower (Name model)) (ToLower preferredModel) ||
   Contains (ToLower (ID model)) (ToLower preferredModel)).

(** First loop: append the first hit to [modelsToTry] and [break]. *)
Fixpoint findPreferred (preferredModel : string) (models modelsToTry : list ModelInfo)
  : list ModelInfo :=
  match models with
  | [] => modelsToTry
  | model :: rest =>
      if isPreferred preferredModel model then modelsToTry ++ [model]
      else findPreferred preferredModel rest modelsToTry
  end.

(** Inner loop of the second loop: is the id already in [modelsToTry]? *)
Fixpoint found (id : string) (modelsToTry : list ModelInfo) : bool :=
  match modelsToTry with
  | [] => false
  | existing :: rest =>
      if String.eqb (ID existing) id then true else found id rest
  end.

(** Second loop: every available model not yet present is appended. *)
Fixpoint addAvailable (models modelsToTry : list ModelInfo) : list ModelInfo :=
  match models with
  | [] => modelsToTry
  | model :: rest =>
      addAvailable rest
        (if Available model then
           if found (ID model) modelsToTry then modelsToTry
           else modelsToTry ++ [model]
         else modelsToTry)
  end.

(** [modelsToTry] as it stands at line 200. *)
Definition selectModels (models : list ModelInfo) (preferredModel : string)
  : list ModelInfo :=
  addAvailable models
    (if String.eqb preferredModel "" then []
     else findPreferred preferredModel models []).

(** The ordering as the specification words it. A descriptor matches
    when it is available and its id or display name contains the
    preference as a case-insensitive substring; the first match in
    catalogue order is selected, and the other available descriptors
    follow in catalogue order. *)
Definition containsFold (s substr : string) : bool :=
  Contains (ToLower s) (ToLower substr).

Definition specMatches (preferredModel : string) (m : ModelInfo) : Prop :=
  Available m = true /\
  (containsFold (ID m) preferredModel = true \/ containsFold (Name m) preferredModel = true).

Definition specPreferred (models : list ModelInfo) (preferredModel : string)
  : option (nat * ModelInfo) :=
  if String.eqb preferredModel "" then None
  else list_find (specMatches preferredModel) models.

Definition specCandidates (models : list ModelInfo) (preferredModel : string)
  : list ModelInfo :=
  match specPreferred models preferredModel with
  | Some (i, chosen) => chosen :: filter (fun m => Available m = true) (delete i models)
  | None => filter (fun m => Available m = true) models
  end.

End Selection.

(** *** The service as a state transformer

    A method of [*BedrockClient] may read and write the client; [Go A] is
    a computation that does so and returns an [A]. *)

Definition Go (A : Type) : Type := BedrockClient -> A * BedrockClient.

#[export] Instance Go_ret : MRet Go := fun A (a : A) bc => (a, bc).

#[export] Instance Go_bind : MBind Go :=
  fun A B (k : A -> Go B) (m : Go A) bc => let '(a, bc') := m bc in k a bc'.

(** Reading [bc.availableModels]. *)
Definition readModels : Go (list ModelInfo) :=
  fun bc => (availableModels bc, bc).

(** [model.Available = b] through [model := &bc.availableModels[i]]. *)
Definition setAvailable (i : nat) (b : bool) : Go unit :=
  fun bc =>
    (tt, {| client := client bc;
            availableModels :=
              alter (fun m => {| ID := ID m; Name := Name m; Available := b;
                                 MessageAPI := MessageAPI m |}) i (availableModels bc) |}).

(** [for i := range ...]: the body runs once per index, in order. *)
Fixpoint forRange (indices : list nat) (body : nat -> Go unit) : Go unit :=
  match indices with
  | [] => mret tt
  | i :: rest => _ ← body i; forRange rest body
  end.

Definition nl : string := String (ascii_of_nat 10) EmptyString.

Definition systemPrompt : string :=
  "You are a helpful AI assistant with access to conversation history and uploaded files. " +:+
  "When responding, consider the full context provided, including previous conversations and any file content. " +:+
  "If file content is mentioned in the context, analyze and reference it appropriately in your response. " +:+
  "Be conversational, helpful, and maintain continuity with previous interactions.".

(** 0.7 as a [float64]: 0x3FE6666666666666. *)
Definition f0_7 : Q := 3152519739159347 # 4503599627370496.

(** The defaults set at lines 164-170 of [GenerateText]. *)
Definition defaultMaxTokens (maxTokens : Z) : Z :=
  if (maxTokens =? 0)%Z then 2000%Z else maxTokens.

Definition defaultTemperature (temperature : Q) : Q :=
  if Qeq_bool temperature 0 then f0_7 else temperature.

(** The request formatter of [GenerateText] (lines 209-239): a
    [map[string]interface{}] chosen by the descriptor's [MessageAPI]. *)
Definition requestBody (model : ModelInfo) (prompt : string) (maxTokens : Z)
    (temperature : Q) : gmap string JSON :=
  if MessageAPI model then
    {[ "anthropic_version" := JString "bedrock-2023-05-31";
       "max_tokens" := JNumber (inject_Z maxTokens);
       "system" := JString systemPrompt;
       "messages" := JArray [JObject {[ "role" := JString "user";
                                        "content" := JString prompt ]}];
       "temperature" := JNumber temperature ]}
  else
    {[ "prompt" := JString (nl +:+ nl +:+ "Human: You are a helpful AI assistant with conversation memory and file analysis capabilities. Please provide thoughtful, contextual responses based on the information provided." +:+ nl +:+ nl +:+ prompt +:+ nl +:+ nl +:+ "Assistant:");
       "max_tokens_to_sample" := JNumber (inject_Z maxTokens);
       "temperature" := JNumber temperature ]}.

(** The probe request of [TestModelAvailability] (lines 111-131). *)
Definition probeBody (model : ModelInfo) : gmap string JSON :=
  let testPrompt := "Hello" in
  if MessageAPI model then
    {[ "anthropic_version" := JString "bedrock-2023-05-31";
       "max_tokens" := JNumber (inject_Z 10);
       "messages" := JArray [JObject {[ "role" := JString "user";
                                        "content" := JString testPrompt ]}] ]}
  else
    {[ "prompt" := JString (nl +:+ nl +:+ "Human: " +:+ testPrompt +:+ nl +:+ nl +:+ "Assistant:");
       "max_tokens_to_sample" := JNumber (inject_Z 10) ]}.

(** Response parsing (lines 267-284): [None] when a type assertion or the
    length test fails, which is the fall-through to line 286. *)
Definition extractText (model : ModelInfo) (response : gmap string JSON) : option string :=
  if MessageAPI model then
    match response !! "content" with
    | Some (JArray (firstContent :: _)) =>
        match firstContent with
        | JObject fields =>
            match fields !! "text" with
            | Some (JString text) => Some text
            | _ => None
            end
        | _ => None
        end
    | _ => None
    end
  else
    match response !! "completion" with
    | Some (JString completion) => Some completion
    | _ => None
    end.

(** [fmt.Errorf("... %v", lastError)]: a nil error prints as [<nil>]. *)
Definition fmt_error (lastError : option string) : string :=
  match lastError with
  | Some e => e
  | None => "<nil>"
  end.

(** The client after further calls were made through its handle. *)
Definition afterCalls (calls : list InvokeModelInput) (bc : BedrockClient) : BedrockClient :=
  {| client := client bc ++ calls; availableModels := availableModels bc |}.

Section Service.
Variable ToLower : string -> string.
(** [json.Marshal] of a request map, [json.Unmarshal] of a response body
    into a [map[string]interface{}], and the Bedrock runtime's answer to
    one call: the response body or an error. *)
Variable json_Marshal : gmap string JSON -> result string string.
Variable json_Unmarshal : string -> result string (gmap string JSON).
Variable runtime : InvokeModelInput -> result string string.

(** [bc.client.InvokeModel(...)]: the call is made, then answered. *)
Definition InvokeModel (input : InvokeModelInput) : Go (result string string) :=
  fun bc =>
    (runtime input,
     {| client := client bc ++ [input]; availableModels := availableModels bc |}).

(** One turn of the loop of [TestModelAvailability]; a marshalling error
    is dropped there ([bodyBytes, _ :=]) and leaves nil bytes. *)
Definition probeModel (i : nat) : Go unit :=
  models ← readModels;
  match models !! i with
  | None => mret tt
  | Some model =>
      let bodyBytes :=
        match json_Marshal (probeBody model) with
        | Ok bytes => bytes
        | Err _ => ""
        end in
      r ← InvokeModel {| ModelId := ID model; Body := bodyBytes |};
      setAvailable i (is_ok r)
  end.

Definition TestModelAvailability : Go unit :=
  models ← readModels;
  forRange (seq 0 (length models)) probeModel.

Definition GetAvailableModels : Go (list string) :=
  models ← readModels;
  mret (map Name (filter (fun m => Available m = true) models)).

(** The loop over [modelsToTry] (lines 205-289), with [lastError] as its
    accumulator; the result is Go's [(string, string, error)]. *)
Fixpoint tryModels (prompt : string) (maxTokens : Z) (temperature : Q)
    (modelsToTry : list ModelInfo) (lastError : option string)
  : Go (string * string * option string) :=
  match modelsToTry with
  | [] =>
      mret ("", "", Some ("all available models failed. Last error: " +:+ fmt_error lastError))
  | model :: rest =>
      match json_Marshal (requestBody model prompt maxTokens temperature) with
      | Err err =>
          tryModels prompt maxTokens temperature rest
            (Some ("error marshaling request: " +:+ err))
      | Ok bodyBytes =>
          resp ← InvokeModel {| ModelId := ID model; Body := bodyBytes |};
          match resp with
          | Err err => tryModels prompt maxTokens temperature rest (Some err)
          | Ok respBody =>
              match json_Unmarshal respBody with
              | Err err =>
                  tryModels prompt maxTokens temperature rest
                    (Some ("error parsing response: " +:+ err))
              | Ok response =>
                  match extractText model response with
                  | Some text => mret (text, Name model, None)
                  | None =>
                      tryModels prompt maxTokens temperature rest
                        (Some ("unexpected response format from model " +:+ Name model))
                  end
              end
          end
      end
  end.

Definition GenerateText (prompt preferredModel : string) (maxTokens : Z) (temperature : Q)
  : Go (string * string * option string) :=
  let maxTokens := defaultMaxTokens maxTokens in
  let temperature := defaultTemperature temperature in
  models ← readModels;
  let modelsToTry := selectModels ToLower models preferredModel in
  if (length modelsToTry =? 0)%nat then
    mret ("", "", Some "no available models found")
  else
    tryModels prompt maxTokens temperature modelsToTry None.

(** What one turn of the loop of [tryModels] comes to for a candidate,
    read off its four exits: the extracted text, or the error the turn
    leaves in [lastError]. Used to state what the loop does. *)
Definition attempt (prompt : string) (maxTokens : Z) (temperature : Q)
    (model : ModelInfo) : result string string :=
  match json_Marshal (requestBody model prompt maxTokens temperature) with
  | Err err => Err ("error marshaling request: " +:+ err)
  | Ok bodyBytes =>
      match runtime {| ModelId := ID model; Body := bodyBytes |} with
      | Err err => Err err
      | Ok respBody =>
          match json_Unmarshal respBody with
          | Err err => Err ("error parsing response: " +:+ err)
          | Ok response =>
              match extractText model response with
              | Some text => Ok text
              | None => Err ("unexpected response format from model " +:+ Name model)
              end
          end
      end
  end.

(** The candidate's turn ends in one of the three [continue]s or at
    line 286. *)
Definition fails (prompt : string) (maxTokens : Z) (temperature : Q)
    (model : ModelInfo) : Prop :=
  is_ok (attempt prompt maxTokens temperature model) = false.

(** The error a candidate's turn leaves in [lastError], if any. *)
Definition errorOf (prompt : string) (maxTokens : Z) (temperature : Q)
    (model : ModelInfo) : option string :=
  match attempt prompt maxTokens temperature model with
  | Err e => Some e
  | Ok _ => None
  end.

(** The [InvokeModel] calls of one turn: none when marshalling fails. *)
Definition invoked (prompt : string) (maxTokens : Z) (temperature : Q)
    (model : ModelInfo) : list InvokeModelInput :=
  match json_Marshal (requestBody model prompt maxTokens temperature) with
  | Err _ => []
  | Ok bodyBytes => [{| ModelId := ID model; Body := bodyBytes |}]
  end.

(** The probe call for a descriptor and the flag the prober derives. *)
Definition probeInput (model : ModelInfo) : InvokeModelInput :=
  {| ModelId := ID model;
     Body := match json_Marshal (probeBody model) with
             | Ok bytes => bytes
             | Err _ => ""
             end |}.

Definition probed (model : ModelInfo) : ModelInfo :=
  {| ID := ID model; Name := Name model;
     Available := is_ok (runtime (probeInput model));
     MessageAPI := MessageAPI model |}.




(** What a handler writes: [http.Error(w, msg, code)], or the JSON
    encoding of a [GenerateResponse] with status 200. *)
Inductive HttpResponse : Type :=
  | HttpError (msg : string) (code : Z)
  | HttpJSON (body : GenerateResponse).

(** [generateHandler]; its argument is what [Decode(&req)] returned. *)
Definition generateHandler (decoded : result string GenerateRequest) : Go HttpResponse :=
  match decoded with
  | Err _ => mret (HttpError "Invalid request body" 400)
  | Ok req =>
      if String.eqb (Prompt req) "" then mret (HttpError "Prompt is required" 400)
      else
        r ← GenerateText (Prompt req) (Model req) (MaxTokens req) (Temperature req);
        match r with
        | (_, _, Some err) =>
            mret (HttpError ("Error generating response: " +:+ err) 500)
        | (response, modelUsed, None) =>
            mret (HttpJSON {| Response := response; ModelUsed := modelUsed |})
        end
  end.

(** [main] up to the point where the server listens: [log.Fatalf] ends
    the process with status 1. *)
Inductive Process : Type :=
  | Exited (status : Z) (logged : string)
  | Serving (bc : BedrockClient).

Definition main (loadDefaultConfig : result string unit) : Process :=
  match NewBedrockClient loadDefaultConfig with
  | Err err => Exited 1 ("Failed to initialize Bedrock client: " +:+ err)
  | Ok bc => Serving (snd (TestModelAvailability bc))
  end.

End Service.

(** *** The read-only handlers and the log line of [generateHandler] *)

(** [encoding/json] on the [[]string] of a [HealthResponse]: a nil slice
    is written as [null]. [GetAvailableModels] returns its
    [var available []string] as declared, hence nil, when it appends
    nothing. *)
Definition encodeAvailable (available : list string) : JSON :=
  match available with
  | [] => JNull
  | _ => JArray (JString <$> available)
  end.

(** [healthHandler]: the encoded [HealthResponse]. *)
Definition healthHandler : Go (gmap string JSON) :=
  available ← GetAvailableModels;
  mret {[ "status" := JString "healthy";
          "service" := JString "bedrock-service";
          "available_models" := encodeAvailable available ]}.

(** The map literal appended for one descriptor in [modelsHandler]. *)
Definition modelEntry (model : ModelInfo) : JSON :=
  JObject {[ "id" := JString (ID model);
             "name" := JString (Name model);
             "available" := JBool (Available model);
             "api_type" := JString (if MessageAPI model then "messages" else "legacy");
             "features" := JArray [JString "conversation-context"; JString "file-analysis"] ]}.

(** [modelsHandler]: [models] starts as [make(..., 0)], which is not nil
    and is written as an array even when empty. *)
Definition modelsHandler : Go (gmap string JSON) :=
  models ← readModels;
  mret {[ "models" := JArray (modelEntry <$> models) ]}.

Definition min (a b : Z) : Z := if (a <? b)%Z then a else b.

(** [len(s)] of a string. *)
Definition len (s : string) : Z := Z.of_nat (String.length s).

(** The slice expression [s[:hi]] on a string: a run-time panic ([None])
    unless [0 <= hi <= len(s)]. *)
Definition sliceTo (s : string) (hi : Z) : option string :=
  if (0 <=? hi)%Z && (hi <=? len s)%Z then Some (substring 0 (Z.to_nat hi) s) else None.

(** The argument [req.Prompt[:min(100, len(req.Prompt))]] of the log line
    of [generateHandler] (lines 332-333). *)
Definition loggedPrompt (prompt : string) : option string :=
  sliceTo prompt (min 100 (len prompt)).

(** *** The server *)

Section Router.
Variable ToLower : string -> string.
Variable json_Marshal : gmap string JSON -> result string string.
Variable json_Unmarshal : string -> result string (gmap string JSON).

(** The states of the client while the server runs: the one [main]
    starts serving with, and the one each handler registered at lines
    394-398 leaves behind ([rootHandler] has no access to the client).
    The runtime may answer differently from one request to the next, so
    each step comes with its own. *)
Inductive Served : BedrockClient -> Prop :=
  | Served_main runtime bc :
      main json_Marshal runtime (Ok tt) = Serving bc -> Served bc
  | Served_health bc :
      Served bc -> Served (healthHandler bc).2
  | Served_models bc :
      Served bc -> Served (modelsHandler bc).2
  | Served_generate runtime decoded bc :
      Served bc ->
      Served (generateHandler ToLower json_Marshal json_Unmarshal runtime decoded bc).2.

End Router.

End Bedrock.

(** ** bedrock-service, version 1 (single model, [bedrock-service/main.go]) *)

Module BedrockV1.

(** The SDK handle; a [*BedrockClient] is [None] when it is nil. *)
Record BedrockClient := { client : unit }.

(** A Go call either returns or panics. *)
Inductive Outcome (A : Type) : Type :=
  | Returns (a : A)
  | Panics (msg : string).
Arguments Returns {A} a.
Arguments Panics {A} msg.

Definition NewBedrockClient (loadDefaultConfig : result string unit)
  : result string BedrockClient :=
  match loadDefaultConfig with
  | Err err => Err ("unable to load SDK config: " +:+ err)
  | Ok _ => Ok {| client := tt |}
  end.

Definition modelID : string := "anthropic.claude-3-haiku-20240307-v1:0".

(** 0.7 as a [float64]. *)
Definition f0_7 : Q := 3152519739159347 # 4503599627370496.

Definition requestBody (prompt : string) : gmap string JSON :=
  {[ "anthropic_version" := JString "bedrock-2023-05-31";
     "max_tokens" := JNumber (inject_Z 1000);
     "messages" := JArray [JObject {[ "role" := JString "user";
                                      "content" := JString prompt ]}];
     "temperature" := JNumber f0_7 ]}.

Section Service.
Variable json_Marshal : gmap string JSON -> result string string.
Variable json_Unmarshal : string -> result string (gmap string JSON).
Variable runtime : Bedrock.InvokeModelInput -> result string string.

(** [GenerateText]: reading [bc.client] through a nil [bc] panics. *)
Definition GenerateText (bc : option BedrockClient) (prompt : string)
  : Outcome (string * option string) :=
  match json_Marshal (requestBody prompt) with
  | Err err => Returns ("", Some ("error marshaling request: " +:+ err))
  | Ok bodyBytes =>
      match bc with
      | None => Panics "runtime error: invalid memory address or nil pointer dereference"
      | Some _ =>
          match runtime {| Bedrock.ModelId := modelID; Bedrock.Body := bodyBytes |} with
          | Err err => Returns ("", Some ("error invoking Bedrock: " +:+ err))
          | Ok respBody =>
              match json_Unmarshal respBody with
              | Err err => Returns ("", Some ("error parsing response: " +:+ err))
              | Ok response =>
                  match response !! "content" with
                  | Some (JArray (JObject fields :: _)) =>
                      match fields !! "text" with
                      | Some (JString text) => Returns (text, None)
                      | _ => Returns ("Unable to generate response", None)
                      end
                  | _ => Returns ("Unable to generate response", None)
                  end
              end
          end
      end
  end.

Inductive HttpResponse : Type :=
  | HttpError (msg : string) (code : Z)
  | HttpJSON (response : string).

Definition generateHandler (bc : option BedrockClient)
    (decoded : result string string) : Outcome HttpResponse :=
  match decoded with
  | Err _ => Returns (HttpError "Invalid request body" 400)
  | Ok prompt =>
      if String.eqb prompt "" then Returns (HttpError "Prompt is required" 400)
      else
        match GenerateText bc prompt with
        | Panics msg => Panics msg
        | Returns (_, Some _) => Returns (HttpError "Error generating response" 500)
        | Returns (response, None) => Returns (HttpJSON response)
        end
  end.

(** [main] up to the point where the server listens: the lines logged
    and the client the handlers are registered with. *)
Definition main (loadDefaultConfig : result string unit)
  : list string * option BedrockClient :=
  match NewBedrockClient loadDefaultConfig with
  | Err err =>
      (["Warning: Bedrock client initialization failed: " +:+ err;
        "Service will run but Bedrock calls will fail"], None)
  | Ok bc => ([], Some bc)
  end.

End Service.

(** The argument [req.Prompt[:min(50, len(req.Prompt))]] of the log line
    of [generateHandler] (line 153); [min] is the same function as in the
    fallback service. *)
Definition loggedPrompt (prompt : string) : option string :=
  Bedrock.sliceTo prompt (Bedrock.min 50 (Bedrock.len prompt)).

End BedrockV1.

(** ** cache-service (the memoization layer) *)

Module CacheService.

(** JavaScript truthiness of a parsed JSON value; [None] below stands
    for [undefined], which is falsy. *)
Definition truthy (v : JSON) : bool :=
  match v with
  | JNull => false
  | JBool b => b
  | JNumber q => negb (Qeq_bool q 0)
  | JString s => negb (String.eqb s "")
  | JArray _ | JObject _ => true
  end.

Definition truthy_opt (v : option JSON) : bool :=
  match v with
  | Some v => truthy v
  | None => false
  end.

(** What an [await] can throw inside the handler. [AxiosError] carries
    [error.response] as [(status, data)] when the server answered. *)
Inductive Exception : Type :=
  | RedisError
  | TypeError
  | AxiosError (response : option (Z * JSON)).

(** Calls that leave the process, in the order they are made. *)
Inductive Event : Type :=
  | RedisGet (key : string)
  | RedisSetEx (key : string) (seconds : Z) (value : string)
  | AxiosPost (data : gmap string JSON).

(** What the handler acts on: the backing store, each entry a value with
    its expiry time in seconds, and the outside calls made so far. *)
Record World := {
  store : gmap string (string * Z);
  events : list Event
}.

Definition JS (A : Type) : Type := World -> result Exception A * World.

#[export] Instance JS_ret : MRet JS := fun A (a : A) w => (Ok a, w).

#[export] Instance JS_bind : MBind JS :=
  fun A B (k : A -> JS B) (m : JS A) w =>
    match m w with
    | (Ok a, w') => k a w'
    | (Err e, w') => (Err e, w')
    end.

Definition throw {A} (e : Exception) : JS A := fun w => (Err e, w).

(** [try { body } catch (error) { handler }]. *)
Definition try_catch {A} (body : JS A) (handler : Exception -> JS A) : JS A :=
  fun w =>
    match body w with
    | (Ok a, w') => (Ok a, w')
    | (Err e, w') => handler e w'
    end.

(** The world after one more outside call. *)
Definition record (ev : Event) (w : World) : World :=
  {| store := store w; events := events w ++ [ev] |}.

(** [res.status(status).json(body)]. *)
Record Reply := {
  status : Z;
  body : gmap string JSON
}.

(** The object literal [{ response: v, cached: c, cacheKey: k }]; a
    property whose value is [undefined] is left out by [JSON.stringify]. *)
Definition generated (response : option JSON) (cached : bool) (cacheKey : string)
  : gmap string JSON :=
  let rest : gmap string JSON :=
    {[ "cached" := JBool cached; "cacheKey" := JString cacheKey ]} in
  match response with
  | Some v => <["response" := v]> rest
  | None => rest
  end.

(** The template literal of [getCacheKey] on a string. *)
Definition cacheKeyOf (prompt : string) : string := "prompt:" +:+ MD5.md5_hex prompt.

(** The reply to a request without a prompt. *)
Definition prompt_required : Reply :=
  {| status := 400; body := {[ "error" := JString "Prompt is required" ]} |}.

(** The reply of the [catch] block when the error carries no response. *)
Definition failed : Reply :=
  {| status := 500; body := {[ "error" := JString "Failed to generate response" ]} |}.

Section Request.
(** The surroundings of one request: the store's clock (seconds) at the
    time of the request, taken as one instant; whether the store can be
    reached; and what the Bedrock service answers to the POST: its [data]
    on a 2xx status, and otherwise a rejection. *)
Variable now : Z.
Variable redis_up : bool.
Variable bedrock : gmap string JSON -> result (option (Z * JSON)) JSON.

(** Modelled from the spec: the backing store's [get] (a Redis server
    reached through node-redis, not among the repository's sources). It
    returns the value if present and not expired, and signals a miss
    otherwise; the call is rejected while the store cannot be reached. *)
Definition redis_get (key : string) : JS (option string) :=
  fun w =>
    let w := record (RedisGet key) w in
    if redis_up then
      (Ok match store w !! key with
          | Some (value, expiresAt) => if (now <? expiresAt)%Z then Some value else None
          | None => None
          end, w)
    else (Err RedisError, w).

(** Modelled from the spec: the backing store's [setWithTTL] ([setEx] of
    node-redis, not among the repository's sources). It stores the value,
    overwriting any prior entry for the key, with expiry = now + ttl; the
    call is rejected while the store cannot be reached. *)
Definition redis_setEx (key : string) (seconds : Z) (value : string) : JS unit :=
  fun w =>
    let w := record (RedisSetEx key seconds value) w in
    if redis_up then
      (Ok tt, {| store := <[key := (value, (now + seconds)%Z)]> (store w);
                 events := events w |})
    else (Err RedisError, w).

(** [axios.post(url, data)]: a status outside 2xx, or no answer, rejects. *)
Definition axios_post (data : gmap string JSON) : JS JSON :=
  fun w =>
    let w := record (AxiosPost data) w in
    match bedrock data with
    | Ok responseData => (Ok responseData, w)
    | Err response => (Err (AxiosError response), w)
    end.

(** [getCacheKey(prompt)]; [hash.update] throws on anything that is not
    a string. *)
Definition getCacheKey (prompt : JSON) : JS string :=
  match prompt with
  | JString s => mret (cacheKeyOf s)
  | _ => throw TypeError
  end.

(** [bedrockResponse.data.response]: reading a property of [null]
    throws, of any other non-object gives [undefined]. *)
Definition data_response (data : JSON) : JS (option JSON) :=
  match data with
  | JObject fields => mret (fields !! "response")
  | JNull => throw TypeError
  | _ => mret None
  end.

(** [redisClient.setEx(cacheKey, 3600, aiResponse)]: node-redis rejects
    an argument that is not a string. *)
Definition cache_response (cacheKey : string) (aiResponse : JSON) : JS unit :=
  match aiResponse with
  | JString value => redis_setEx cacheKey 3600 value
  | _ => throw TypeError
  end.

(** The [catch] block of the handler. *)
Definition on_error (error : Exception) : JS Reply :=
  match error with
  | AxiosError (Some (responseStatus, responseData)) =>
      mret {| status := responseStatus;
              body := {[ "error" := if truthy responseData then responseData
                                    else JString "Error from Bedrock service" ]} |}
  | _ => mret failed
  end.

(** Lines 165-183 of the handler: the call to the Bedrock service, the
    write to the cache and the reply. *)
Definition forward (prompt : JSON) (useCache : JSON) (cacheKey : string) : JS Reply :=
  data ← axios_post {[ "prompt" := prompt ]};
  aiResponse ← data_response data;
  _ ← (if truthy useCache && truthy_opt aiResponse
       then cache_response cacheKey (default JNull aiResponse)
       else mret tt);
  mret {| status := 200; body := generated aiResponse false cacheKey |}.

(** [app.post('/generate', ...)]; [req_body] is [req.body] as
    [express.json()] parsed it. A result [Err] is an exception thrown
    outside the [try]: no reply is written. *)
Definition generate (req_body : gmap string JSON) : JS Reply :=
  let prompt := req_body !! "prompt" in
  let useCache := default (JBool true) (req_body !! "useCache") in
  match prompt with
  | None => mret prompt_required
  | Some prompt =>
      if negb (truthy prompt) then mret prompt_required
      else
        cacheKey ← getCacheKey prompt;
        try_catch
          (if truthy useCache then
             cachedResponse ← redis_get cacheKey;
             match cachedResponse with
             | Some cached =>
                 if negb (String.eqb cached "") then
                   mret {| status := 200;
                           body := generated (Some (JString cached)) true cacheKey |}
                 else forward prompt useCache cacheKey
             | None => forward prompt useCache cacheKey
             end
           else forward prompt useCache cacheKey)
          on_error
  end.

(** Modelled from the spec: the backing store's [flush] ([flushAll] of
    node-redis, not among the repository's sources). It empties the
    store; the call is rejected while the store cannot be reached.
    [events] keeps the calls of the generate handler and is left as it
    is. *)
Definition redis_flushAll : JS unit :=
  fun w =>
    if redis_up then (Ok tt, {| store := ∅; events := events w |})
    else (Err RedisError, w).

(** Modelled from the spec: the number of stored keys that [stats]
    exposes ([dbSize] of node-redis, not among the repository's
    sources); the call is rejected while the store cannot be reached. *)
Definition redis_dbSize : JS Z :=
  fun w =>
    if redis_up then (Ok (Z.of_nat (size (store w))), w)
    else (Err RedisError, w).

(** [redisClient.info('stats')]: a text the server makes up, rejected
    while the store cannot be reached. *)
Variable info_text : string.

Definition redis_info : JS string :=
  fun w => if redis_up then (Ok info_text, w) else (Err RedisError, w).

(** [app.get('/stats', ...)]. *)
Definition stats : JS Reply :=
  try_catch
    (info ← redis_info;
     dbSize ← redis_dbSize;
     mret {| status := 200;
             body := {[ "cacheSize" := JNumber (inject_Z dbSize);
                        "info" := JString info ]} |})
    (fun _ => mret {| status := 500;
                      body := {[ "error" := JString "Failed to get cache stats" ]} |}).

(** [app.delete('/cache', ...)]. *)
Definition clear_cache : JS Reply :=
  try_catch
    (_ ← redis_flushAll;
     mret {| status := 200;
             body := {[ "message" := JString "Cache cleared successfully" ]} |})
    (fun _ => mret {| status := 500;
                      body := {[ "error" := JString "Failed to clear cache" ]} |}).

(** The reply of [app.get('/cache/:key', ...)] to a miss. *)
Definition key_not_found : Reply :=
  {| status := 404;
     body := {[ "cached" := JBool false; "message" := JString "Key not found" ]} |}.

(** [app.get('/cache/:key', ...)]; [key] is [req.params.key]. The empty
    string is falsy, so an empty value is answered as a miss. *)
Definition get_cached (key : string) : JS Reply :=
  try_catch
    (value ← redis_get key;
     match value with
     | Some value =>
         if negb (String.eqb value "") then
           mret {| status := 200;
                   body := {[ "cached" := JBool true; "response" := JString value ]} |}
         else mret key_not_found
     | None => mret key_not_found
     end)
    (fun _ => mret {| status := 500;
                      body := {[ "error" := JString "Failed to retrieve from cache" ]} |}).

End Request.

End CacheService.

(** ** frontend (the file picker of [frontend/src/App.js]) *)

Module Frontend.

(** What the handlers read of a [File]. *)
Record File := {
  name : string;
  size : Z
}.

Definition validTypes : list string := [".pdf"; ".txt"; ".docx"; ".csv"; ".json"; ".md"].

(** [s.split('.').pop()]: the text after the last dot, the whole of [s]
    when it has none. [current] is the piece being read. *)
Fixpoint lastPiece (current s : string) : string :=
  match s with
  | EmptyString => current
  | String c rest =>
      if Ascii.eqb c "." then lastPiece "" rest
      else lastPiece (current +:+ String c EmptyString) rest
  end.

(** [Array.prototype.join]. *)
Fixpoint join (sep : string) (items : list string) : string :=
  match items with
  | [] => ""
  | [item] => item
  | item :: rest => item +:+ sep +:+ join sep rest
  end.

Section Picker.
(** [String.prototype.toLowerCase]. *)
Variable toLowerCase : string -> string.

Definition fileExt (file : File) : string :=
  "." +:+ toLowerCase (lastPiece "" (name file)).

Definition isValidSize (file : File) : bool := (size file <=? 10 * 1024 * 1024)%Z.

Definition isValidType (file : File) : bool :=
  bool_decide (fileExt file ∈ validTypes).

(** The callback of [fileArray.filter]: the alert it raises, if any, and
    whether the file is kept. *)
Definition checkFile (file : File) : option string * bool :=
  if negb (isValidSize file) then
    (Some ("File " +:+ name file +:+ " is too large. Maximum size is 10MB."), false)
  else if negb (isValidType file) then
    (Some ("File " +:+ name file +:+ " has unsupported format. Supported: " +:+
           join ", " validTypes), false)
  else (None, true).

(** [fileArray.filter(...)], with the alerts in the order they are
    raised. *)
Fixpoint filterFiles (fileArray : list File) : list string * list File :=
  match fileArray with
  | [] => ([], [])
  | file :: rest =>
      let '(alert, keep) := checkFile file in
      let '(alerts, validFiles) := filterFiles rest in
      (match alert with Some text => text :: alerts | None => alerts end,
       if keep then file :: validFiles else validFiles)
  end.

(** [handleFileSelect]: the alerts raised and the next [files] state. *)
Definition handleFileSelect (selectedFiles prev : list File) : list string * list File :=
  let '(alerts, validFiles) := filterFiles selectedFiles in
  (alerts, prev ++ validFiles).

End Picker.

(** [prev.filter((_, i) => i !== index)], [i] counting from [start]. *)
Fixpoint filterIndex (start index : nat) (prev : list File) : list File :=
  match prev with
  | [] => []
  | file :: rest =>
      if negb (start =? index)%nat then file :: filterIndex (S start) index rest
      else filterIndex (S start) index rest
  end.

(** [removeFile]: the next [files] state. *)
Definition removeFile (index : nat) (prev : list File) : list File :=
  filterIndex 0 index prev.

End Frontend.

(** ** Concrete surroundings used in examples *)

Module Examples.
Import Bedrock.

(** Three descriptors: A is unavailable, B and C are available; B speaks
    the message API, C the legacy one. *)
Definition modelA : ModelInfo :=
  {| ID := "vendor.model-a"; Name := "Model A"; Available := false; MessageAPI := true |}.
Definition modelB : ModelInfo :=
  {| ID := "vendor.model-b"; Name := "Model B"; Available := true; MessageAPI := true |}.
Definition modelC : ModelInfo :=
  {| ID := "vendor.model-c"; Name := "Model C"; Available := true; MessageAPI := false |}.

Definition descriptors : list ModelInfo := [modelA; modelB; modelC].

Definition abc : BedrockClient := {| client := []; availableModels := descriptors |}.

(** The client as [NewBedrockClient] builds it. *)
Definition fresh : BedrockClient := {| client := []; availableModels := catalogue |}.

(** Stand-ins for [encoding/json]: request bytes that name the request's
    shape, and four response bodies with their decoding. *)
Definition marshal (body : gmap string JSON) : result string string :=
  match body !! "prompt" with
  | Some _ => Ok "legacy request"
  | None => Ok "messages request"
  end.

Definition unmarshal (bytes : string) : result string (gmap string JSON) :=
  if String.eqb bytes "completion" then
    Ok {[ "completion" := JString "Hello from C" ]}
  else if String.eqb bytes "content" then
    Ok {[ "content" := JArray [JObject {[ "type" := JString "text";
                                          "text" := JString "Hello from B" ]}] ]}
  else if String.eqb bytes "blank" then
    Ok {[ "content" := JArray [JObject {[ "type" := JString "text";
                                          "text" := JString "" ]}] ]}
  else if String.eqb bytes "empty completion" then
    Ok {[ "completion" := JString "" ]}
  else Err "invalid character 'o' in literal null (expecting 'u')".

(** B answers with bytes that do not parse, C with a completion. *)
Definition b_malformed (input : InvokeModelInput) : result string string :=
  if String.eqb (ModelId input) (ID modelB) then Ok "nonsense"
  else if String.eqb (ModelId input) (ID modelC) then Ok "completion"
  else Err "AccessDeniedException".

(** B answers with an empty text. *)
Definition b_blank (input : InvokeModelInput) : result string string :=
  if String.eqb (ModelId input) (ID modelB) then Ok "blank"
  else if String.eqb (ModelId input) (ID modelC) then Ok "completion"
  else Err "AccessDeniedException".

(** B is throttled and C answers with an empty completion. *)
Definition c_empty (input : InvokeModelInput) : result string string :=
  if String.eqb (ModelId input) (ID modelC) then Ok "empty completion"
  else Err "ThrottlingException".

(** Every call fails, as without credentials. *)
Definition no_credentials (input : InvokeModelInput) : result string string :=
  Err "failed to retrieve credentials: static credentials are empty".

(** The runtime answering every call with the same bytes. *)
Definition replies (bytes : string) (input : InvokeModelInput) : result string string :=
  Ok bytes.

Import CacheService.

Definition empty_world : World := {| store := ∅; events := [] |}.

(** A store that holds an answer for "hello" until second 5000. *)
Definition warm_world : World :=
  {| store := {[ cacheKeyOf "hello" := ("Hi there", 5000%Z) ]}; events := [] |}.

Definition hello : gmap string JSON := {[ "prompt" := JString "hello" ]}.

Definition hello_with_parameters : gmap string JSON :=
  {[ "prompt" := JString "hello";
     "max_tokens" := JNumber (inject_Z 5);
     "temperature" := JNumber (1 # 5);
     "model" := JString "haiku" ]}.

(** The Bedrock service answering 200 with a text and the model used. *)
Definition answers (text : string) (data : gmap string JSON)
  : result (option (Z * JSON)) JSON :=
  Ok (JObject {[ "response" := JString text; "model_used" := JString "Claude 3 Haiku" ]}).

(** The Bedrock service refusing the POST with status 503. *)
Definition overloaded (data : gmap string JSON) : result (option (Z * JSON)) JSON :=
  Err (Some (503%Z, JString "upstream connect error")).

End Examples.

(** * Properties *)

(** ** Candidate ordering *)

Section SelectionFacts.
Import Bedrock.
Variable ToLower : string -> string.

Lemma filter_ext_elem_of {A} (P1 P2 : A -> Prop)
    `{!forall x, Decision (P1 x), !forall x, Decision (P2 x)} (l : list A) :
  (forall x, x ∈ l -> P1 x <-> P2 x) -> filter P1 l = filter P2 l.
Proof.
  induction l as [|a l IH]; intros Hext; [done|].
  rewrite !filter_cons. rewrite IH by (intros x Hx; apply Hext; by right).
  assert (Ha : P1 a <-> P2 a) by (apply Hext; by left).
  repeat case_decide; tauto || done.
Qed.

Lemma found_app (id : string) (xs ys : list ModelInfo) :
  found id (xs ++ ys) = found id xs || found id ys.
Proof.
  induction xs as [|x xs IH]; simpl; [done|].
  destruct (String.eqb (ID x) id); [done | apply IH].
Qed.

Lemma findPreferred_list_find (preferredModel : string) (models acc : list ModelInfo) :
  findPreferred ToLower preferredModel models acc =
  match list_find (fun m => isPreferred ToLower preferredModel m = true) models with
  | Some (_, chosen) => acc ++ [chosen]
  | None => acc
  end.
Proof.
  induction models as [|model rest IH]; simpl; [done|].
  case_decide as Hp.
  - by rewrite Hp.
  - apply not_true_is_false in Hp. rewrite Hp, IH.
    by destruct (list_find _ rest) as [[? ?]|].
Qed.

Lemma isPreferred_specMatches (preferredModel : string) (m : ModelInfo) :
  isPreferred ToLower preferredModel m = true <-> specMatches ToLower preferredModel m.
Proof.
  unfold isPreferred, specMatches, containsFold.
  rewrite andb_true_iff, orb_true_iff. tauto.
Qed.

(** With distinct ids the second loop appends exactly the available
    models whose id is not yet present. *)
Lemma addAvailable_filter (models acc : list ModelInfo) :
  NoDup (ID <$> models) ->
  addAvailable models acc =
  acc ++ filter (fun m => Available m = true ∧ found (ID m) acc = false) models.
Proof.
  revert acc. induction models as [|model rest IH]; intros acc Hnd; simpl.
  - by rewrite filter_nil, app_nil_r.
  - apply NoDup_cons in Hnd as [Hnotin Hnd].
    assert (Hext : forall extra, ID extra = ID model ->
      filter (fun m => Available m = true ∧ found (ID m) (acc ++ [extra]) = false) rest =
      filter (fun m => Available m = true ∧ found (ID m) acc = false) rest).
    { intros extra Hid. apply filter_ext_elem_of. intros m Hm.
      rewrite found_app. simpl. rewrite Hid.
      destruct (String.eqb_spec (ID model) (ID m)) as [Heq | Hne].
      - exfalso. apply Hnotin. rewrite Heq. by apply list_elem_of_fmap_2.
      - by rewrite orb_false_r. }
    rewrite IH by done. rewrite filter_cons.
    destruct (Available model) eqn:Hav.
    + destruct (found (ID model) acc) eqn:Hf.
      * rewrite decide_False by (intros [_ ?]; congruence). done.
      * rewrite decide_True by done. rewrite Hext by done.
        by rewrite <- app_assoc.
    + rewrite decide_False by (intros [? _]; congruence). done.
Qed.

Lemma filter_skip_chosen (models : list ModelInfo) (i : nat) (chosen : ModelInfo) :
  NoDup (ID <$> models) ->
  models !! i = Some chosen ->
  filter (fun m => Available m = true ∧ found (ID m) [chosen] = false) models =
  filter (fun m => Available m = true) (delete i models).
Proof.
  revert i. induction models as [|model rest IH]; intros i Hnd Hi; [done|].
  apply NoDup_cons in Hnd as [Hnotin Hnd].
  destruct i as [|i]; simpl in Hi.
  - injection Hi as ->. rewrite filter_cons.
    rewrite decide_False; last first.
    { intros [_ Hf]. simpl in Hf. by rewrite String.eqb_refl in Hf. }
    simpl. apply filter_ext_elem_of. intros m Hm. simpl.
    destruct (String.eqb_spec (ID chosen) (ID m)) as [Heq | Hne].
    + exfalso. apply Hnotin. rewrite Heq. by apply list_elem_of_fmap_2.
    + tauto.
  - assert (Hne : ID chosen <> ID model).
    { intros Heq. apply Hnotin. rewrite <- Heq.
      apply list_elem_of_fmap_2. by eapply list_elem_of_lookup_2. }
    simpl. rewrite !filter_cons. rewrite <- (IH i) by done.
    simpl. apply String.eqb_neq in Hne. rewrite Hne.
    destruct (Available model).
    + by rewrite !decide_True by done.
    + by rewrite !decide_False by (try intros [? _]; done).
Qed.

(** C1. With distinct descriptor ids (the catalogue's invariant), the
    candidate list built by [GenerateText] is the one the specification
    describes: when [preferredModel] is non-empty, the first descriptor in
    catalogue order that is available and whose name or id contains it
    (lower-cased on both sides) comes first; then every other available
    descriptor follows in catalogue order. *)
Theorem selectModels_is_specCandidates (models : list ModelInfo) (preferredModel : string) :
  NoDup (ID <$> models) ->
  selectModels ToLower models preferredModel = specCandidates ToLower models preferredModel.
Proof.
  intros Hnd. unfold selectModels, specCandidates, specPreferred.
  destruct (String.eqb preferredModel "").
  - rewrite addAvailable_filter by done. simpl.
    apply list_filter_iff. intros m. simpl. tauto.
  - rewrite findPreferred_list_find.
    rewrite (list_find_ext _ (specMatches ToLower preferredModel))
      by (intros m; apply isPreferred_specMatches).
    destruct (list_find _ models) as [[i chosen]|] eqn:Hfind.
    + apply list_find_Some in Hfind as (Hi & _ & _).
      rewrite addAvailable_filter by done. simpl. f_equal.
      by apply filter_skip_chosen.
    + rewrite addAvailable_filter by done. simpl.
      apply list_filter_iff. intros m. simpl. tauto.
Qed.

End SelectionFacts.

(** ** The request formatter *)

Section FormatterFacts.
Import Bedrock.

(** X1. A message-API descriptor and a legacy descriptor turn the same
    request into payloads of different shapes: the first carries
    [messages], [system] and [max_tokens] and no [prompt], the second a
    [prompt] and [max_tokens_to_sample] and no [messages]. *)
Theorem requestBody_shapes (structured legacy : ModelInfo) (prompt : string)
    (maxTokens : Z) (temperature : Q) :
  MessageAPI structured = true ->
  MessageAPI legacy = false ->
  let sent := requestBody structured prompt maxTokens temperature in
  let sent' := requestBody legacy prompt maxTokens temperature in
  dom sent = {[ "anthropic_version"; "max_tokens"; "system"; "messages"; "temperature" ]} /\
  dom sent' = {[ "prompt"; "max_tokens_to_sample"; "temperature" ]} /\
  sent !! "messages" =
    Some (JArray [JObject {[ "role" := JString "user"; "content" := JString prompt ]}]) /\
  sent !! "max_tokens" = Some (JNumber (inject_Z maxTokens)) /\
  sent' !! "max_tokens_to_sample" = Some (JNumber (inject_Z maxTokens)) /\
  sent <> sent'.
Proof.
  intros Hstructured Hlegacy sent sent'. subst sent sent'.
  unfold requestBody. rewrite Hstructured, Hlegacy.
  split; [| split; [| split; [| split; [| split]]]].
  - rewrite !dom_insert_L, dom_singleton_L. set_solver.
  - rewrite !dom_insert_L, dom_singleton_L. set_solver.
  - by simplify_map_eq.
  - by simplify_map_eq.
  - by simplify_map_eq.
  - intros Heq. apply (f_equal (lookup "messages")) in Heq. by simplify_map_eq.
Qed.

End FormatterFacts.

(** ** The fallback loop *)

Section ServiceFacts.
Import Bedrock.
Variable ToLower : string -> string.
Variable json_Marshal : gmap string JSON -> result string string.
Variable json_Unmarshal : string -> result string (gmap string JSON).
Variable runtime : InvokeModelInput -> result string string.

Abbreviation tryModels := (Bedrock.tryModels json_Marshal json_Unmarshal runtime).
Abbreviation attempt := (Bedrock.attempt json_Marshal json_Unmarshal runtime).
Abbreviation invoked := (Bedrock.invoked json_Marshal).
Abbreviation GenerateText := (Bedrock.GenerateText ToLower json_Marshal json_Unmarshal runtime).
Abbreviation generateHandler :=
  (Bedrock.generateHandler ToLower json_Marshal json_Unmarshal runtime).

Lemma afterCalls_nil (bc : BedrockClient) : afterCalls [] bc = bc.
Proof. destruct bc. unfold afterCalls. simpl. by rewrite app_nil_r. Qed.

Lemma afterCalls_app (xs ys : list InvokeModelInput) (bc : BedrockClient) :
  afterCalls ys (afterCalls xs bc) = afterCalls (xs ++ ys) bc.
Proof. unfold afterCalls. simpl. by rewrite app_assoc. Qed.

(** A failing candidate: its error becomes [lastError] and the loop goes
    on with the next one. *)
Lemma tryModels_failed prompt maxTokens temperature model rest lastError bc e :
  attempt prompt maxTokens temperature model = Err e ->
  tryModels prompt maxTokens temperature (model :: rest) lastError bc =
  tryModels prompt maxTokens temperature rest (Some e)
    (afterCalls (invoked prompt maxTokens temperature model) bc).
Proof.
  unfold Bedrock.attempt, Bedrock.invoked. simpl.
  destruct (json_Marshal _) as [bodyBytes | err].
  - unfold mbind, Go_bind, InvokeModel. simpl. fold (afterCalls [{| ModelId := ID model; Body := bodyBytes |}] bc).
    destruct (runtime _) as [respBody | err]; [| by intros [= ->]].
    destruct (json_Unmarshal respBody) as [response | err]; [| by intros [= ->]].
    destruct (extractText model response); [done | by intros [= <-]].
  - intros [= <-]. by rewrite afterCalls_nil.
Qed.

(** A candidate that answers: its text and display name are returned at
    once. *)
Lemma tryModels_succeeded prompt maxTokens temperature model rest lastError bc text :
  attempt prompt maxTokens temperature model = Ok text ->
  tryModels prompt maxTokens temperature (model :: rest) lastError bc =
  ((text, Name model, None), afterCalls (invoked prompt maxTokens temperature model) bc).
Proof.
  unfold Bedrock.attempt, Bedrock.invoked. simpl.
  destruct (json_Marshal _) as [bodyBytes | err]; [| done].
  unfold mbind, Go_bind, InvokeModel. simpl. fold (afterCalls [{| ModelId := ID model; Body := bodyBytes |}] bc).
  destruct (runtime _) as [respBody | err]; [| done].
  destruct (json_Unmarshal respBody) as [response | err]; [| done].
  destruct (extractText model response); [by intros [= ->] | done].
Qed.

Abbreviation fails := (Bedrock.fails json_Marshal json_Unmarshal runtime).
Abbreviation errorOf := (Bedrock.errorOf json_Marshal json_Unmarshal runtime).

(** The loop never writes [bc.availableModels]. *)
Lemma tryModels_frame prompt maxTokens temperature modelsToTry lastError bc :
  availableModels (tryModels prompt maxTokens temperature modelsToTry lastError bc).2 =
  availableModels bc.
Proof.
  revert lastError bc. induction modelsToTry as [|model rest IH]; intros lastError bc.
  - done.
  - destruct (attempt prompt maxTokens temperature model) as [text | e] eqn:Hat.
    + by rewrite (tryModels_succeeded _ _ _ _ _ _ _ _ Hat).
    + rewrite (tryModels_failed _ _ _ _ _ _ _ _ Hat). by rewrite IH.
Qed.

(** When every candidate fails the loop ends at line 289 with the error
    of the last candidate (or the incoming [lastError] if there is none). *)
Lemma tryModels_exhausted prompt maxTokens temperature modelsToTry lastError bc :
  Forall (fails prompt maxTokens temperature) modelsToTry ->
  (tryModels prompt maxTokens temperature modelsToTry lastError bc).1 =
  ("", "",
   Some ("all available models failed. Last error: " +:+
         fmt_error (match last modelsToTry with
                    | Some final => errorOf prompt maxTokens temperature final
                    | None => lastError
                    end))).
Proof.
  revert lastError bc. induction modelsToTry as [|model rest IH]; intros lastError bc Hall.
  - done.
  - apply Forall_cons in Hall as [Hm Hrest].
    unfold Bedrock.fails in Hm.
    destruct (attempt prompt maxTokens temperature model) as [text | e] eqn:Hat; [done|].
    rewrite (tryModels_failed _ _ _ _ _ _ _ _ Hat), IH by done.
    destruct rest as [|next rest']; simpl.
    + unfold Bedrock.errorOf. by rewrite Hat.
    + destruct (last (next :: rest')) eqn:Hlast; [done | by apply last_None in Hlast].
Qed.

(** A result without error comes from the first candidate that answers. *)
Lemma tryModels_winner prompt maxTokens temperature modelsToTry lastError bc text name :
  (tryModels prompt maxTokens temperature modelsToTry lastError bc).1 = (text, name, None) ->
  exists before winner after,
    modelsToTry = before ++ winner :: after /\
    Forall (fails prompt maxTokens temperature) before /\
    attempt prompt maxTokens temperature winner = Ok text /\
    name = Name winner.
Proof.
  revert lastError bc. induction modelsToTry as [|model rest IH]; intros lastError bc.
  - done.
  - destruct (attempt prompt maxTokens temperature model) as [text' | e] eqn:Hat.
    + rewrite (tryModels_succeeded _ _ _ _ _ _ _ _ Hat). intros [= Htext Hname].
      subst. exists [], model, rest. by repeat split.
    + rewrite (tryModels_failed _ _ _ _ _ _ _ _ Hat). intros Hrun.
      apply IH in Hrun as (before & winner & after & -> & Hbefore & Hw & ->).
      exists (model :: before), winner, after. repeat split; [| done].
      apply Forall_cons. split; [| done]. unfold Bedrock.fails. by rewrite Hat.
Qed.

(** The two exits of the loop are the only ones: an error is returned
    exactly when every candidate fails. *)
Lemma tryModels_error_iff prompt maxTokens temperature modelsToTry lastError bc :
  (tryModels prompt maxTokens temperature modelsToTry lastError bc).1.2 <> None <->
  Forall (fails prompt maxTokens temperature) modelsToTry.
Proof.
  split.
  - revert lastError bc. induction modelsToTry as [|model rest IH]; intros lastError bc.
    + intros _. constructor.
    + destruct (attempt prompt maxTokens temperature model) as [text | e] eqn:Hat.
      * by rewrite (tryModels_succeeded _ _ _ _ _ _ _ _ Hat).
      * rewrite (tryModels_failed _ _ _ _ _ _ _ _ Hat). intros Hrun.
        apply Forall_cons. split; [unfold Bedrock.fails; by rewrite Hat | by eapply IH].
  - intros Hall. by rewrite tryModels_exhausted.
Qed.

Lemma GenerateText_unfold prompt preferredModel maxTokens temperature bc :
  GenerateText prompt preferredModel maxTokens temperature bc =
  if (length (selectModels ToLower (availableModels bc) preferredModel) =? 0)%nat
  then (("", "", Some "no available models found"), bc)
  else tryModels prompt (defaultMaxTokens maxTokens) (defaultTemperature temperature)
         (selectModels ToLower (availableModels bc) preferredModel) None bc.
Proof.
  unfold Bedrock.GenerateText, mbind, Go_bind, readModels. simpl.
  by destruct (length _ =? 0)%nat.
Qed.

Lemma length_eqb_0 {A} (l : list A) : (length l =? 0)%nat = true <-> l = [].
Proof. destruct l; simpl; split; done. Qed.

(** Candidates are available descriptors of the catalogue. *)
Lemma findPreferred_elem_of preferredModel models acc m :
  m ∈ findPreferred ToLower preferredModel models acc ->
  m ∈ acc \/ (m ∈ models /\ Available m = true).
Proof.
  induction models as [|model rest IH]; simpl; [by left|].
  destruct (isPreferred ToLower preferredModel model) eqn:Hp.
  - intros Hm. apply elem_of_app in Hm as [Hm | Hm]; [by left|].
    apply list_elem_of_singleton in Hm as ->. right. split; [by left|].
    unfold isPreferred in Hp. by apply andb_true_iff in Hp as [? _].
  - intros Hm. apply IH in Hm as [Hm | [Hm Hav]]; [by left | right].
    split; [by right | done].
Qed.

Lemma addAvailable_elem_of models acc m :
  m ∈ addAvailable models acc ->
  m ∈ acc \/ (m ∈ models /\ Available m = true).
Proof.
  revert acc. induction models as [|model rest IH]; intros acc; simpl; [by left|].
  intros Hm. apply IH in Hm as [Hm | [Hm Hav]].
  - destruct (Available model) eqn:Hav; [| by left].
    destruct (found (ID model) acc); [by left|].
    apply elem_of_app in Hm as [Hm | Hm]; [by left|].
    apply list_elem_of_singleton in Hm as ->. right. split; [by left | done].
  - right. split; [by right | done].
Qed.

Lemma selectModels_elem_of models preferredModel m :
  m ∈ selectModels ToLower models preferredModel -> m ∈ models /\ Available m = true.
Proof.
  unfold selectModels. intros Hm.
  apply addAvailable_elem_of in Hm as [Hm | Hm]; [| done].
  destruct (String.eqb preferredModel ""); [by apply elem_of_nil in Hm|].
  apply findPreferred_elem_of in Hm as [Hm | Hm]; [by apply elem_of_nil in Hm | done].
Qed.

(** C4. [GenerateText] returns an error exactly when the candidate list
    is empty or every candidate fails. With no candidate the error is "no
    available models found" and no call was made through the client; when
    all candidates fail the error carries the error of the last
    candidate. A success is never made up: a result without error is the
    text of a candidate that answered, together with that candidate's
    display name, which is non-empty when the display names are. *)
Theorem GenerateText_terminal_failure
    prompt preferredModel maxTokens temperature bc text modelUsed err bc' :
  GenerateText prompt preferredModel maxTokens temperature bc = ((text, modelUsed, err), bc') ->
  let modelsToTry := selectModels ToLower (availableModels bc) preferredModel in
  let failing := fails prompt (defaultMaxTokens maxTokens) (defaultTemperature temperature) in
  (err <> None <-> modelsToTry = [] \/ Forall failing modelsToTry) /\
  (modelsToTry = [] ->
     (text, modelUsed, err) = ("", "", Some "no available models found") /\ bc' = bc) /\
  (modelsToTry <> [] -> Forall failing modelsToTry ->
     exists final e,
       last modelsToTry = Some final /\
       attempt prompt (defaultMaxTokens maxTokens) (defaultTemperature temperature) final = Err e /\
       (text, modelUsed, err) =
         ("", "", Some ("all available models failed. Last error: " +:+ e))) /\
  (err = None ->
     exists winner,
       winner ∈ modelsToTry /\ winner ∈ availableModels bc /\
       attempt prompt (defaultMaxTokens maxTokens) (defaultTemperature temperature) winner = Ok text /\
       modelUsed = Name winner) /\
  (Forall (fun m => Name m <> "") (availableModels bc) -> err = None -> modelUsed <> "").
Proof.
  intros Hrun modelsToTry failing. rewrite GenerateText_unfold in Hrun.
  fold modelsToTry in Hrun.
  assert (Hwin : err = None ->
     exists winner,
       winner ∈ modelsToTry /\ winner ∈ availableModels bc /\
       attempt prompt (defaultMaxTokens maxTokens) (defaultTemperature temperature) winner = Ok text /\
       modelUsed = Name winner).
  { intros ->. destruct (length modelsToTry =? 0)%nat; [done|].
    apply (f_equal fst) in Hrun. simpl in Hrun.
    apply tryModels_winner in Hrun as (before & winner & after & Heq & _ & Hat & ->).
    assert (Hin : winner ∈ modelsToTry).
    { rewrite Heq. apply elem_of_app. right. by left. }
    exists winner. repeat split; [done | | done].
    by apply selectModels_elem_of in Hin as [? _]. }
  destruct (length modelsToTry =? 0)%nat eqn:Hlen.
  - apply length_eqb_0 in Hlen. injection Hrun as <- <- <- <-.
    repeat split; try done.
    + intros _. by left.
  - assert (Hne : modelsToTry <> []).
    { intros Hnil. apply length_eqb_0 in Hnil. congruence. }
    pose proof (tryModels_error_iff prompt (defaultMaxTokens maxTokens)
                  (defaultTemperature temperature) modelsToTry None bc) as Hiff.
    rewrite Hrun in Hiff. simpl in Hiff.
    repeat split.
    + intros Herr. right. by apply Hiff.
    + intros [Hnil | Hall]; [done | by apply Hiff].
    + done.
    + done.
    + intros _ Hall.
      pose proof (tryModels_exhausted prompt (defaultMaxTokens maxTokens)
                    (defaultTemperature temperature) modelsToTry None bc Hall) as Hex.
      rewrite Hrun in Hex. simpl in Hex.
      destruct (last modelsToTry) as [final|] eqn:Hlast; [| by apply last_None in Hlast].
      assert (Hfinal : failing final).
      { eapply Forall_forall; [exact Hall|]. by apply last_Some_elem_of. }
      unfold failing, Bedrock.fails in Hfinal. unfold Bedrock.errorOf in Hex.
      destruct (attempt _ _ _ final) as [? | e] eqn:Hat; [done|].
      by exists final, e.
    + done.
    + intros Hnames Hnone. destruct (Hwin Hnone) as (winner & _ & Hin & _ & ->).
      eapply Forall_forall in Hnames; [exact Hnames | done].
Qed.

(** The prober visits every descriptor once, in order, and sets its flag
    from the outcome of the probe call; nothing else changes. *)
Lemma probe_loop (checked rest : list ModelInfo) (bc : BedrockClient) :
  availableModels bc = checked ++ rest ->
  forRange (seq (length checked) (length rest))
    (probeModel json_Marshal runtime) bc =
  (tt, {| client := client bc ++ (probeInput json_Marshal <$> rest);
          availableModels := checked ++ (probed json_Marshal runtime <$> rest) |}).
Proof.
  revert checked bc. induction rest as [|model rest IH]; intros checked bc Hbc.
  - simpl. unfold mret, Go_ret. rewrite !app_nil_r. rewrite app_nil_r in Hbc.
    rewrite <- Hbc. by destruct bc.
  - simpl. unfold mbind at 1, Go_bind at 1.
    assert (Hstep : probeModel json_Marshal runtime (length checked) bc =
      (tt, {| client := client bc ++ [probeInput json_Marshal model];
              availableModels := (checked ++ [probed json_Marshal runtime model]) ++ rest |})).
    { unfold probeModel, mbind, Go_bind, readModels, InvokeModel, setAvailable. simpl.
      rewrite Hbc. rewrite list_lookup_middle by done. simpl.
      f_equal. f_equal.
      rewrite Hbc, <- app_assoc. simpl.
      rewrite alter_app_r_alt by done. by rewrite Nat.sub_diag. }
    rewrite Hstep.
    replace (S (length checked)) with (length (checked ++ [probed json_Marshal runtime model]))
      by (rewrite length_app; simpl; lia).
    rewrite IH by done. simpl. f_equal. f_equal.
    + by rewrite <- app_assoc.
    + by rewrite <- app_assoc.
Qed.

Lemma TestModelAvailability_run (bc : BedrockClient) :
  TestModelAvailability json_Marshal runtime bc =
  (tt, {| client := client bc ++ (probeInput json_Marshal <$> availableModels bc);
          availableModels := probed json_Marshal runtime <$> availableModels bc |}).
Proof.
  unfold TestModelAvailability, mbind, Go_bind, readModels. simpl.
  exact (probe_loop [] (availableModels bc) bc eq_refl).
Qed.

Lemma GenerateText_frame prompt preferredModel maxTokens temperature bc :
  availableModels (GenerateText prompt preferredModel maxTokens temperature bc).2 =
  availableModels bc.
Proof.
  rewrite GenerateText_unfold.
  destruct (length _ =? 0)%nat; [done | apply tryModels_frame].
Qed.

Lemma generateHandler_unfold req bc :
  Prompt req <> "" ->
  generateHandler (Ok req) bc =
  let r := GenerateText (Prompt req) (Model req) (MaxTokens req) (Temperature req) bc in
  (match r.1 with
   | (_, _, Some err) => HttpError ("Error generating response: " +:+ err) 500
   | (response, modelUsed, None) =>
       HttpJSON {| Response := response; ModelUsed := modelUsed |}
   end, r.2).
Proof.
  intros Hne. unfold Bedrock.generateHandler.
  apply String.eqb_neq in Hne. rewrite Hne.
  unfold mbind, Go_bind.
  destruct (GenerateText _ _ _ _ bc) as [[[response modelUsed] [err|]] bc']; done.
Qed.

Lemma generateHandler_frame decoded bc :
  availableModels (generateHandler decoded bc).2 = availableModels bc.
Proof.
  destruct decoded as [req | e]; [| done].
  destruct (String.eqb_spec (Prompt req) "") as [Heq | Hne].
  - unfold Bedrock.generateHandler. by rewrite Heq.
  - rewrite generateHandler_unfold by done. simpl. apply GenerateText_frame.
Qed.

(** C7. A failing candidate leaves its error in [lastError] and the loop
    goes on with the next candidate; neither [GenerateText] nor its
    handler nor [GetAvailableModels] writes [bc.availableModels], so every
    descriptor's [Available] flag is after the call what it was before.
    The flags are written by [TestModelAvailability], which sets each one
    from the outcome of that descriptor's probe call. *)
Theorem GenerateText_keeps_available prompt preferredModel maxTokens temperature bc :
  (forall model rest lastError e,
     attempt prompt maxTokens temperature model = Err e ->
     tryModels prompt maxTokens temperature (model :: rest) lastError bc =
     tryModels prompt maxTokens temperature rest (Some e)
       (afterCalls (invoked prompt maxTokens temperature model) bc) /\
     availableModels (afterCalls (invoked prompt maxTokens temperature model) bc) =
     availableModels bc) /\
  availableModels (GenerateText prompt preferredModel maxTokens temperature bc).2 =
    availableModels bc /\
  (forall decoded, availableModels (generateHandler decoded bc).2 = availableModels bc) /\
  (GetAvailableModels bc).2 = bc /\
  availableModels (TestModelAvailability json_Marshal runtime bc).2 =
    probed json_Marshal runtime <$> availableModels bc.
Proof.
  repeat split.
  - by apply tryModels_failed.
  - apply GenerateText_frame.
  - intros decoded. apply generateHandler_frame.
  - by rewrite TestModelAvailability_run.
Qed.

(** C8, as the code has it. Parsing follows the descriptor's format. For
    a message-API descriptor the text is that of the first content block:
    [content] must be a non-empty array whose first element is an object
    with a string [text]. For a legacy descriptor it is the string
    [completion]. A missing or differently typed field makes the candidate
    fail with "unexpected response format" (so the next one is tried); an
    empty string is a field like any other and is returned as the text. *)
Theorem extractText_variants model response :
  (MessageAPI model = true ->
     (forall text,
        extractText model response = Some text <->
        exists fields rest,
          response !! "content" = Some (JArray (JObject fields :: rest)) /\
          fields !! "text" = Some (JString text)) /\
     extractText model {[ "content" := JArray [JObject {[ "text" := JString "" ]}] ]} = Some "") /\
  (MessageAPI model = false ->
     (forall completion,
        extractText model response = Some completion <->
        response !! "completion" = Some (JString completion)) /\
     extractText model {[ "completion" := JString "" ]} = Some "") /\
  (forall prompt maxTokens temperature bodyBytes respBody,
     json_Marshal (requestBody model prompt maxTokens temperature) = Ok bodyBytes ->
     runtime {| ModelId := ID model; Body := bodyBytes |} = Ok respBody ->
     json_Unmarshal respBody = Ok response ->
     attempt prompt maxTokens temperature model =
     match extractText model response with
     | Some text => Ok text
     | None => Err ("unexpected response format from model " +:+ Name model)
     end).
Proof.
  split; [| split].
  - intros Hmessage. split; [| unfold extractText; by rewrite Hmessage].
    intros text. unfold extractText. rewrite Hmessage. split.
    + destruct (response !! "content") as [[| | | |[|[| | | | |fields] rest]|]|]; try done.
      destruct (fields !! "text") as [[| | |s| |]|] eqn:Htext; try done.
      intros [= ->]. by exists fields, rest.
    + intros (fields & rest & Hcontent & Htext). by rewrite Hcontent, Htext.
  - intros Hlegacy. split; [| unfold extractText; by rewrite Hlegacy].
    intros completion. unfold extractText. rewrite Hlegacy. split.
    + by destruct (response !! "completion") as [[| | |s| |]|]; try done; intros [= ->].
    + by intros ->.
  - intros prompt maxTokens temperature bodyBytes respBody Hm Hr Hu.
    unfold Bedrock.attempt. by rewrite Hm, Hr, Hu.
Qed.

(** With every descriptor unavailable nothing is selected. *)
Lemma selectModels_none_available models preferredModel :
  Forall (fun m => Available m = false) models ->
  selectModels ToLower models preferredModel = [].
Proof.
  intros Hall.
  destruct (selectModels ToLower models preferredModel) as [|m rest] eqn:Hsel; [done|].
  assert (Hm : m ∈ selectModels ToLower models preferredModel) by (rewrite Hsel; by left).
  apply selectModels_elem_of in Hm as [Hin Hav].
  eapply Forall_forall in Hall; [| exact Hin]. congruence.
Qed.



(** X4. The loop stops at the first candidate that answers: the calls made
    are those of the candidates before it and its own, and the candidates
    after it are not invoked. *)
Theorem tryModels_stops_at_first_answer
    prompt maxTokens temperature before winner after lastError bc text :
  Forall (fails prompt maxTokens temperature) before ->
  attempt prompt maxTokens temperature winner = Ok text ->
  tryModels prompt maxTokens temperature (before ++ winner :: after) lastError bc =
  ((text, Name winner, None),
   afterCalls (concat (invoked prompt maxTokens temperature <$> before) ++
               invoked prompt maxTokens temperature winner) bc).
Proof.
  intros Hbefore Hwinner. revert lastError bc.
  induction Hbefore as [|model before Hmodel _ IH]; intros lastError bc.
  - cbn [app fmap list_fmap concat].
    by rewrite (tryModels_succeeded _ _ _ _ _ _ _ _ Hwinner).
  - unfold Bedrock.fails in Hmodel.
    destruct (attempt prompt maxTokens temperature model) as [? | e] eqn:Hat; [done|].
    cbn [app]. rewrite (tryModels_failed _ _ _ _ _ _ _ _ Hat), IH.
    rewrite afterCalls_app. cbn [fmap list_fmap concat]. by rewrite app_assoc.
Qed.

(** X3. The prober makes one probe call per descriptor, in catalogue order,
    and sets each flag from the outcome of that descriptor's call; ids,
    display names and formats are as before. *)
Theorem TestModelAvailability_probes_each_descriptor (bc : BedrockClient) :
  let bc' := (TestModelAvailability json_Marshal runtime bc).2 in
  client bc' = client bc ++ (probeInput json_Marshal <$> availableModels bc) /\
  Available <$> availableModels bc' =
    (fun m => is_ok (runtime (probeInput json_Marshal m))) <$> availableModels bc /\
  ID <$> availableModels bc' = ID <$> availableModels bc /\
  Name <$> availableModels bc' = Name <$> availableModels bc /\
  MessageAPI <$> availableModels bc' = MessageAPI <$> availableModels bc.
Proof.
  rewrite TestModelAvailability_run. cbn [snd client availableModels].
  rewrite <- !list_fmap_compose. done.
Qed.

(** X5. The handler answers with status 400 exactly when the body could
    not be decoded or the prompt is empty, and then nothing has been
    called: the client is as it was. An empty prompt gets "Prompt is
    required". Every other request goes on to [GenerateText], whose
    client is the one the handler leaves: its text and model name are
    sent with status 200, its error with status 500. *)
Theorem generateHandler_bad_request (decoded : result string GenerateRequest) (bc : BedrockClient) :
  let r := generateHandler decoded bc in
  ((exists msg, r.1 = HttpError msg 400) <->
   is_ok decoded = false \/ exists req, decoded = Ok req /\ Prompt req = "") /\
  ((exists msg, r.1 = HttpError msg 400) -> r.2 = bc) /\
  (forall req, decoded = Ok req -> Prompt req = "" ->
     r = (HttpError "Prompt is required" 400, bc)) /\
  (forall req, decoded = Ok req -> Prompt req <> "" ->
     let g := GenerateText (Prompt req) (Model req) (MaxTokens req) (Temperature req) bc in
     r.2 = g.2 /\
     ((exists response modelUsed,
         g.1 = (response, modelUsed, None) /\
         r.1 = HttpJSON {| Response := response; ModelUsed := modelUsed |}) \/
      (exists response modelUsed err,
         g.1 = (response, modelUsed, Some err) /\
         r.1 = HttpError ("Error generating response: " +:+ err) 500))).
Proof.
  cbv zeta. destruct decoded as [req | e].
  2: { split; [| split; [| split]]; [| done | done | done].
       split; [by left | intros _; by eexists]. }
  destruct (String.eqb_spec (Prompt req) "") as [Heq | Hne].
  { assert (Hrun : generateHandler (Ok req) bc = (HttpError "Prompt is required" 400, bc)).
    { unfold Bedrock.generateHandler. by rewrite Heq. }
    rewrite Hrun. split; [| split; [| split]]; [| done | done |].
    - split; [intros _; right; by exists req | intros _; by eexists].
    - by intros req' [= <-] ?. }
  assert (Hrun : generateHandler (Ok req) bc =
    let g := GenerateText (Prompt req) (Model req) (MaxTokens req) (Temperature req) bc in
    (match g.1 with
     | (_, _, Some err) => HttpError ("Error generating response: " +:+ err) 500
     | (response, modelUsed, None) =>
         HttpJSON {| Response := response; ModelUsed := modelUsed |}
     end, g.2)) by (by apply generateHandler_unfold).
  cbv zeta in Hrun. rewrite Hrun. cbn [fst snd].
  destruct (GenerateText (Prompt req) (Model req) (MaxTokens req) (Temperature req) bc).1
    as [[response modelUsed] [err|]] eqn:Hg.
  - split; [| split; [| split]].
    + split; [by intros [msg [= _ ?]] | intros [? | (req' & [= <-] & ?)]; done].
    + by intros [msg [= _ ?]].
    + by intros req' [= <-] ?.
    + intros req' [= <-] _. split; [done|]. right. by exists response, modelUsed, err.
  - split; [| split; [| split]].
    + split; [by intros [msg ?] | intros [? | (req' & [= <-] & ?)]; done].
    + by intros [msg ?].
    + by intros req' [= <-] ?.
    + intros req' [= <-] _. split; [done|]. left. by exists response, modelUsed.
Qed.

(** What [generateHandler] writes: one of two client errors, a single
    500 whose message is that of [GenerateText], or the text of the
    winning candidate with its display name. *)
Lemma generateHandler_reply decoded bc reply bc' :
  generateHandler decoded bc = (reply, bc') ->
  match reply with
  | HttpJSON body =>
      exists req winner,
        decoded = Ok req /\
        winner ∈ selectModels ToLower (availableModels bc) (Model req) /\
        attempt (Prompt req) (defaultMaxTokens (MaxTokens req))
          (defaultTemperature (Temperature req)) winner = Ok (Response body) /\
        ModelUsed body = Name winner
  | HttpError msg code =>
      (code = 400%Z /\ (msg = "Invalid request body" \/ msg = "Prompt is required")) \/
      (code = 500%Z /\
       exists req,
         decoded = Ok req /\
         ((selectModels ToLower (availableModels bc) (Model req) = [] /\
           msg = "Error generating response: no available models found") \/
          (exists final e,
             last (selectModels ToLower (availableModels bc) (Model req)) = Some final /\
             attempt (Prompt req) (defaultMaxTokens (MaxTokens req))
               (defaultTemperature (Temperature req)) final = Err e /\
             msg = "Error generating response: all available models failed. Last error: " +:+ e)))
  end.
Proof.
  destruct decoded as [req | e].
  2: { intros [= <- <-]. left. split; [done | by left]. }
  destruct (String.eqb_spec (Prompt req) "") as [Heq | Hne].
  { unfold Bedrock.generateHandler. rewrite Heq. simpl.
    intros [= <- <-]. left. split; [done | by right]. }
  rewrite generateHandler_unfold by done. rewrite GenerateText_unfold. cbv zeta.
  set (modelsToTry := selectModels ToLower (availableModels bc) (Model req)).
  destruct (length modelsToTry =? 0)%nat eqn:Hlen.
  { apply length_eqb_0 in Hlen. simpl. intros [= <- <-].
    right. split; [done|]. exists req. split; [done|]. left. by split. }
  set (prompt := Prompt req).
  set (maxTokens := defaultMaxTokens (MaxTokens req)).
  set (temperature := defaultTemperature (Temperature req)).
  destruct (tryModels prompt maxTokens temperature modelsToTry None bc)
    as [[[text name] err] bc1] eqn:Hrun.
  apply (f_equal fst) in Hrun. cbn [fst snd] in *.
  destruct err as [err|]; intros [= <- <-].
  - right. split; [done|]. exists req. split; [done|]. right.
    assert (Hall : Forall (fails prompt maxTokens temperature) modelsToTry).
    { apply (tryModels_error_iff _ _ _ _ None bc). by rewrite Hrun. }
    pose proof (tryModels_exhausted prompt maxTokens temperature modelsToTry None bc Hall) as Hex.
    rewrite Hrun in Hex. injection Hex as _ _ ->.
    destruct (last modelsToTry) as [final|] eqn:Hlast.
    2: { apply last_None in Hlast. rewrite Hlast in Hlen. done. }
    assert (Hfinal : fails prompt maxTokens temperature final).
    { eapply Forall_forall; [exact Hall|]. by apply last_Some_elem_of. }
    unfold Bedrock.fails in Hfinal. unfold Bedrock.errorOf.
    destruct (attempt prompt maxTokens temperature final) as [? | e] eqn:Hat; [done|].
    by exists final, e.
  - apply tryModels_winner in Hrun as (before & winner & after & Heq & _ & Hat & ->).
    exists req, winner. repeat split; [| done].
    fold modelsToTry. rewrite Heq. apply elem_of_app. right. by left.
Qed.

End ServiceFacts.

(** ** The memoization layer *)

Section CacheFacts.
Import CacheService.

Ltac js_unfold :=
  unfold forward, cache_response, data_response, getCacheKey, redis_get, redis_setEx,
    axios_post, on_error, try_catch, throw, mbind, JS_bind, mret, JS_ret in *.
Variable now : Z.
Variable redis_up : bool.
Variable bedrock : gmap string JSON -> result (option (Z * JSON)) JSON.

(** Lines 165-197 for a string prompt, exit by exit. *)
Lemma forward_run (prompt useCache : JSON) (cacheKey : string) (w : World) :
  try_catch (forward now redis_up bedrock prompt useCache cacheKey) on_error w =
  let w1 := record (AxiosPost {[ "prompt" := prompt ]}) w in
  match bedrock {[ "prompt" := prompt ]} with
  | Err (Some (responseStatus, responseData)) =>
      (Ok {| status := responseStatus;
             body := {[ "error" := if truthy responseData then responseData
                                   else JString "Error from Bedrock service" ]} |}, w1)
  | Err None => (Ok failed, w1)
  | Ok JNull => (Ok failed, w1)
  | Ok data =>
      let aiResponse := match data with JObject fields => fields !! "response" | _ => None end in
      if truthy useCache && truthy_opt aiResponse then
        match aiResponse with
        | Some (JString value) =>
            let w2 := record (RedisSetEx cacheKey 3600 value) w1 in
            if redis_up then
              (Ok {| status := 200; body := generated aiResponse false cacheKey |},
               {| store := <[cacheKey := (value, (now + 3600)%Z)]> (store w2);
                  events := events w2 |})
            else (Ok failed, w2)
        | _ => (Ok failed, w1)
        end
      else (Ok {| status := 200; body := generated aiResponse false cacheKey |}, w1)
  end.
Proof.
  js_unfold. simpl.
  destruct (bedrock _) as [data | [[st d]|]]; simpl; try done.
  destruct data as [| | | | |fields]; simpl; try done;
    try (rewrite andb_false_r; done).
  destruct (fields !! "response") as [ai|]; simpl; [| by rewrite andb_false_r].
  destruct (truthy useCache); simpl; [| done].
  destruct ai; simpl; try done.
  - by destruct b.
  - by destruct (Qeq_bool q 0).
  - destruct (String.eqb s ""); simpl; [done|]. by destruct redis_up.
Qed.

(** The exits of the handler before the [try]. *)
Lemma generate_without_prompt (req_body : gmap string JSON) (w : World) :
  truthy_opt (req_body !! "prompt") = false ->
  generate now redis_up bedrock req_body w = (Ok prompt_required, w).
Proof.
  unfold generate. destruct (req_body !! "prompt") as [prompt|]; [| done].
  cbn [truthy_opt]. by intros ->.
Qed.

Lemma generate_not_a_string (req_body : gmap string JSON) (prompt : JSON) (w : World) :
  req_body !! "prompt" = Some prompt ->
  truthy prompt = true ->
  (forall p, prompt <> JString p) ->
  generate now redis_up bedrock req_body w = (Err TypeError, w).
Proof.
  intros Hp Htruthy Hkind. unfold generate. rewrite Hp, Htruthy. cbn [negb].
  by destruct prompt as [| b | q | p | items | fields]; [.. | | ]; try done; destruct (Hkind p).
Qed.

(** A prompt is missing or falsy, or truthy and not a string, or a
    non-empty string. *)
Lemma prompt_cases (prompt : option JSON) :
  truthy_opt prompt = false \/
  (exists v, prompt = Some v /\ truthy v = true /\ forall p, v <> JString p) \/
  (exists p, prompt = Some (JString p) /\ p <> "").
Proof.
  destruct prompt as [[| b | q | p | items | fields]|]; try (by left);
    try (right; left; by eexists).
  - destruct b; [right; left; by eexists | by left].
  - destruct (Qeq_bool q 0) eqn:Hq; [left; simpl; by rewrite Hq|].
    right. left. exists (JNumber q). repeat split; [simpl; by rewrite Hq | done].
  - destruct (String.eqb_spec p "") as [-> | Hne]; [by left|].
    right. right. by exists p.
Qed.

Lemma generate_run (req_body : gmap string JSON) (p : string) (w : World) :
  req_body !! "prompt" = Some (JString p) -> p <> "" ->
  let useCache := default (JBool true) (req_body !! "useCache") in
  let cacheKey := cacheKeyOf p in
  let onward := try_catch (forward now redis_up bedrock (JString p) useCache cacheKey) on_error in
  generate now redis_up bedrock req_body w =
  if truthy useCache then
    let w1 := record (RedisGet cacheKey) w in
    if redis_up then
      match store w !! cacheKey with
      | Some (value, expiresAt) =>
          if (now <? expiresAt)%Z && negb (String.eqb value "") then
            (Ok {| status := 200;
                   body := generated (Some (JString value)) true cacheKey |}, w1)
          else onward w1
      | None => onward w1
      end
    else (Ok failed, w1)
  else onward w.
Proof.
  intros Hp Hne useCache cacheKey onward. unfold generate. rewrite Hp. simpl.
  apply String.eqb_neq in Hne. rewrite Hne. simpl.
  fold useCache. subst onward cacheKey. unfold cacheKeyOf.
  unfold getCacheKey, redis_get, try_catch at 1, mbind at 1 2, JS_bind at 1 2, mret at 1, JS_ret at 1.
  simpl.
  destruct (truthy useCache); [| reflexivity].
  destruct redis_up; [| reflexivity]. simpl.
  destruct (store w !! _) as [[value expiresAt]|]; [| reflexivity].
  destruct (now <? expiresAt)%Z; simpl; [| reflexivity].
  destruct (String.eqb value ""); reflexivity.
Qed.


Lemma generated_response r c k : generated r c k !! "response" = r.
Proof. unfold generated. destruct r; by simplify_map_eq. Qed.

Lemma generated_cached r c k : generated r c k !! "cached" = Some (JBool c).
Proof. unfold generated. destruct r; by simplify_map_eq. Qed.

Lemma generated_model_used r c k : generated r c k !! "model_used" = None.
Proof. unfold generated. destruct r; by simplify_map_eq. Qed.

Lemma error_body_lookup (msg : JSON) (field : string) :
  field <> "error" -> ({[ "error" := msg ]} : gmap string JSON) !! field = None.
Proof. intros. by simplify_map_eq. Qed.

(** Every reply of lines 165-197 is the generated object with status 200
    or an error object. *)
Lemma forward_reply (prompt useCache : JSON) (cacheKey : string) (w : World) r w' :
  try_catch (forward now redis_up bedrock prompt useCache cacheKey) on_error w = (r, w') ->
  exists reply, r = Ok reply /\
    ((status reply = 200%Z /\ exists aiResponse, body reply = generated aiResponse false cacheKey) \/
     (exists msg, body reply = {[ "error" := msg ]})).
Proof.
  rewrite forward_run. cbv zeta.
  assert (Hdone : forall status0 body0 w0,
    ((status0 = 200%Z /\ exists aiResponse, body0 = generated aiResponse false cacheKey) \/
     (exists msg, body0 = {[ "error" := msg ]})) ->
    (Ok {| status := status0; body := body0 |}, w0) = (r, w') ->
    exists reply, r = Ok reply /\
      ((status reply = 200%Z /\
        exists aiResponse, body reply = generated aiResponse false cacheKey) \/
       (exists msg, body reply = {[ "error" := msg ]}))).
  { intros status0 body0 w0 Hshape [= <- <-]. by eexists. }
  assert (Hfailed : forall w0, (Ok failed, w0) = (r, w') ->
    exists reply, r = Ok reply /\
      ((status reply = 200%Z /\
        exists aiResponse, body reply = generated aiResponse false cacheKey) \/
       (exists msg, body reply = {[ "error" := msg ]}))).
  { intros w0. apply Hdone. right. by eexists. }
  assert (Hgenerated : forall aiResponse w0,
    (Ok {| status := 200; body := generated aiResponse false cacheKey |}, w0) = (r, w') ->
    exists reply, r = Ok reply /\
      ((status reply = 200%Z /\
        exists aiResponse, body reply = generated aiResponse false cacheKey) \/
       (exists msg, body reply = {[ "error" := msg ]}))).
  { intros aiResponse w0. apply Hdone. left. split; [done | by eexists]. }
  destruct (bedrock _) as [data | [[st d]|]];
    [| apply Hdone; right; by eexists | apply Hfailed].
  destruct data as [| b | q | s | items | fields]; [apply Hfailed | | | | |];
    (destruct (_ && _); [| apply Hgenerated]); try apply Hfailed.
  destruct (fields !! "response") as [[| b | q | s | items | inner]|]; try apply Hfailed.
  destruct redis_up; [apply Hgenerated | apply Hfailed].
Qed.

Lemma generate_reply (req_body : gmap string JSON) (w : World) reply w' :
  generate now redis_up bedrock req_body w = (Ok reply, w') ->
  (status reply = 200%Z /\
   exists response cached cacheKey, body reply = generated response cached cacheKey) \/
  (exists msg, body reply = {[ "error" := msg ]}).
Proof.
  destruct (prompt_cases (req_body !! "prompt"))
    as [Hnone | [(v & Hp & Htruthy & Hkind) | (p & Hp & Hne)]].
  - rewrite generate_without_prompt by done. intros [= <- <-]. right. by eexists.
  - by rewrite (generate_not_a_string _ _ _ Hp Htruthy Hkind).
  - rewrite (generate_run _ _ _ Hp Hne). cbv zeta.
    assert (Honward : forall w0,
      try_catch (forward now redis_up bedrock (JString p)
                   (default (JBool true) (req_body !! "useCache")) (cacheKeyOf p))
        on_error w0 = (Ok reply, w') ->
      (status reply = 200%Z /\
       exists response cached cacheKey, body reply = generated response cached cacheKey) \/
      (exists msg, body reply = {[ "error" := msg ]})).
    { intros w0 Hrun.
      apply forward_reply in Hrun as (reply' & [= <-] & [[? [ai ?]] | ?]); [left | by right].
      split; [done | by exists ai, false, (cacheKeyOf p)]. }
    destruct (truthy _); [| apply Honward].
    destruct redis_up eqn:Hup.
    2: { intros [= ? ?]; subst. right. by eexists. }
    destruct (store w !! _) as [[value expiresAt]|]; [| apply Honward].
    destruct (_ && _); [| apply Honward].
    intros [= ? ?]; subst. left. split; [done|].
    by exists (Some (JString value)), true, (cacheKeyOf p).
Qed.

(** The outside calls of lines 165-197: the POST, which carries the
    prompt and nothing else, and at most one write to the cache. *)
Lemma forward_events (prompt useCache : JSON) (cacheKey : string) (w : World) :
  exists tail,
    events (try_catch (forward now redis_up bedrock prompt useCache cacheKey) on_error w).2 =
    events w ++ AxiosPost {[ "prompt" := prompt ]} :: tail /\
    (tail = [] \/ exists value, tail = [RedisSetEx cacheKey 3600 value]).
Proof.
  rewrite forward_run. cbv zeta.
  repeat case_match; simpl;
    first [ exists []; split; [reflexivity | by left]
          | eexists [_]; split; [by rewrite <- app_assoc | right; by eexists] ].
Qed.

Lemma forward_posts (prompt useCache : JSON) (cacheKey : string) (w : World) data :
  AxiosPost data ∈
    events (try_catch (forward now redis_up bedrock prompt useCache cacheKey) on_error w).2 ->
  AxiosPost data ∈ events w \/ data = {[ "prompt" := prompt ]}.
Proof.
  destruct (forward_events prompt useCache cacheKey w) as (tail & -> & Htail).
  rewrite elem_of_app, elem_of_cons.
  intros [Hin | [[= ->] | Hin]]; [by left | by right |].
  destruct Htail as [-> | [value ->]].
  - by apply elem_of_nil in Hin.
  - by apply list_elem_of_singleton in Hin.
Qed.

Lemma generate_posts (req_body : gmap string JSON) (w : World) data :
  AxiosPost data ∈ events (generate now redis_up bedrock req_body w).2 ->
  AxiosPost data ∈ events w \/
  exists p, req_body !! "prompt" = Some (JString p) /\ data = {[ "prompt" := JString p ]}.
Proof.
  destruct (prompt_cases (req_body !! "prompt"))
    as [Hnone | [(v & Hp & Htruthy & Hkind) | (p & Hp & Hne)]].
  - rewrite generate_without_prompt by done. by left.
  - rewrite (generate_not_a_string _ _ _ Hp Htruthy Hkind). by left.
  - rewrite (generate_run _ _ _ Hp Hne). cbv zeta. rewrite Hp.
    assert (Honward : forall w0,
      (AxiosPost data ∈ events w0 -> AxiosPost data ∈ events w) ->
      AxiosPost data ∈ events (try_catch (forward now redis_up bedrock (JString p)
                   (default (JBool true) (req_body !! "useCache")) (cacheKeyOf p))
        on_error w0).2 ->
      AxiosPost data ∈ events w \/
      exists p0, Some (JString p) = Some (JString p0) /\ data = {[ "prompt" := JString p0 ]}).
    { intros w0 Hw0 Hin. apply forward_posts in Hin as [Hin | ->]; [left; by apply Hw0|].
      right. by exists p. }
    assert (Hget : AxiosPost data ∈ events (record (RedisGet (cacheKeyOf p)) w) ->
                   AxiosPost data ∈ events w).
    { cbn [record events]. rewrite elem_of_app, list_elem_of_singleton. by intros [? | ?]. }
    destruct (truthy _); [| by apply Honward].
    destruct redis_up eqn:Hup; [| intros Hin; left; by apply Hget].
    destruct (store w !! _) as [[value expiresAt]|]; [| by apply Honward].
    destruct (_ && _); [| by apply Honward].
    intros Hin. left. by apply Hget.
Qed.

(** A reply of lines 165-197 with a non-empty response text, for a
    request that uses the cache, has been written to the store. *)
Lemma forward_cached (prompt useCache : JSON) (cacheKey : string) (w w1 : World)
    (reply : Reply) (text : string) :
  truthy useCache = true ->
  try_catch (forward now redis_up bedrock prompt useCache cacheKey) on_error w = (Ok reply, w1) ->
  body reply !! "response" = Some (JString text) ->
  text <> "" ->
  store w1 = <[cacheKey := (text, (now + 3600)%Z)]> (store w).
Proof.
  intros Huc. rewrite forward_run. cbv zeta. rewrite Huc. simpl.
  destruct (bedrock _) as [[| b | q | s | items | fields] | [[st d]|]]; simpl;
    try (intros [= <- <-] Hresp; simpl in Hresp; by simplify_map_eq).
  destruct (fields !! "response") as [[| b | q | s | items | inner]|]; simpl;
    try (intros [= <- <-] Hresp; simpl in Hresp; by simplify_map_eq).
  - destruct b; intros [= <- <-] Hresp; simpl in Hresp; by simplify_map_eq.
  - destruct (Qeq_bool q 0); intros [= <- <-] Hresp; simpl in Hresp; by simplify_map_eq.
  - destruct (String.eqb_spec s "") as [-> | Hs]; simpl.
    + intros [= <- <-] Hresp Htext. simpl in Hresp. by simplify_map_eq.
    + destruct redis_up; intros [= <- <-] Hresp Htext; simpl in Hresp; by simplify_map_eq.
Qed.

End CacheFacts.

Section CacheTheorems.
Import CacheService.


(** C10. The handler reads [prompt] and [useCache] from the request body
    and nothing else: two bodies that agree on these two properties, and
    differ in [max_tokens], [temperature], [model] or anything else, lead
    to the same reply, the same cache key, the same store and the same
    outside calls; and the one POST it may send to the Bedrock service
    carries the prompt alone. *)
Theorem generate_reads_prompt_and_useCache now redis_up bedrock
    (body1 body2 : gmap string JSON) (w : World) :
  body1 !! "prompt" = body2 !! "prompt" ->
  body1 !! "useCache" = body2 !! "useCache" ->
  generate now redis_up bedrock body1 w = generate now redis_up bedrock body2 w /\
  forall data,
    AxiosPost data ∈ events (generate now redis_up bedrock body1 w).2 ->
    AxiosPost data ∈ events w \/
    exists p, body1 !! "prompt" = Some (JString p) /\ data = {[ "prompt" := JString p ]}.
Proof.
  intros Hprompt HuseCache. split.
  - unfold generate. by rewrite Hprompt, HuseCache.
  - apply generate_posts.
Qed.


(** C3, as the code has it. While the store cannot be reached, a request
    that does not use the cache never touches the store: it goes to the
    Bedrock service and returns its answer, exactly as it would with the
    store up. A request that uses the cache stops at the lookup: the
    rejected [get] is caught, the Bedrock service is not called, and the
    reply is status 500 with "Failed to generate response". *)
Theorem generate_when_store_unreachable now bedrock
    (req_body : gmap string JSON) (p : string) (w : World) :
  req_body !! "prompt" = Some (JString p) -> p <> "" ->
  let useCache := default (JBool true) (req_body !! "useCache") in
  (truthy useCache = true ->
     generate now false bedrock req_body w =
     (Ok failed, record (RedisGet (cacheKeyOf p)) w)) /\
  (truthy useCache = false ->
     generate now false bedrock req_body w = generate now true bedrock req_body w /\
     (generate now false bedrock req_body w).2 =
       record (AxiosPost {[ "prompt" := JString p ]}) w /\
     forall fields,
       bedrock {[ "prompt" := JString p ]} = Ok (JObject fields) ->
       (generate now false bedrock req_body w).1 =
       Ok {| status := 200;
             body := generated (fields !! "response") false (cacheKeyOf p) |}).
Proof.
  intros Hp Hne useCache. split; intros Huc.
  - rewrite (generate_run _ _ _ _ _ _ Hp Hne). cbv zeta. fold useCache. by rewrite Huc.
  - rewrite !(generate_run _ _ _ _ _ _ Hp Hne). cbv zeta. fold useCache. rewrite Huc.
    rewrite !forward_run. cbv zeta. rewrite Huc. simpl.
    repeat split.
    + by destruct (bedrock _) as [[]|[[]|]].
    + by intros fields ->.
Qed.

(** C2, as the code has it. The cache key is "prompt:" followed by the
    MD5 digest of the prompt text alone. If a request that uses the cache
    is answered with a non-empty response text, that text is afterwards in
    the store under the prompt's key (written with a lifetime of 3600
    seconds when it came from the Bedrock service), and every later
    request for the same prompt that uses the cache, made while the store
    is reachable and the entry has not expired, is answered with the same
    text from the cache, its only outside call being the lookup. *)
Theorem repeated_prompt_is_served_from_cache now1 redis_up1 bedrock1
    (body1 : gmap string JSON) (p : string) (w w1 : World) (reply1 : Reply) (text : string) :
  body1 !! "prompt" = Some (JString p) ->
  truthy (default (JBool true) (body1 !! "useCache")) = true ->
  generate now1 redis_up1 bedrock1 body1 w = (Ok reply1, w1) ->
  body reply1 !! "response" = Some (JString text) ->
  text <> "" ->
  exists expiresAt,
    store w1 !! cacheKeyOf p = Some (text, expiresAt) /\
    (now1 < expiresAt)%Z /\
    (body reply1 !! "cached" = Some (JBool false) -> expiresAt = (now1 + 3600)%Z) /\
    forall now2 bedrock2 (body2 : gmap string JSON),
      body2 !! "prompt" = Some (JString p) ->
      truthy (default (JBool true) (body2 !! "useCache")) = true ->
      (now2 < expiresAt)%Z ->
      generate now2 true bedrock2 body2 w1 =
      (Ok {| status := 200; body := generated (Some (JString text)) true (cacheKeyOf p) |},
       record (RedisGet (cacheKeyOf p)) w1).
Proof.
  intros Hp Huc Hrun Hresp Htext.
  assert (Hne : p <> "").
  { intros ->. unfold generate in Hrun. rewrite Hp in Hrun. simpl in Hrun.
    injection Hrun as <- <-. simpl in Hresp. by simplify_map_eq. }
  assert (Hagain : forall expiresAt,
    store w1 !! cacheKeyOf p = Some (text, expiresAt) ->
    forall now2 bedrock2 (body2 : gmap string JSON),
      body2 !! "prompt" = Some (JString p) ->
      truthy (default (JBool true) (body2 !! "useCache")) = true ->
      (now2 < expiresAt)%Z ->
      generate now2 true bedrock2 body2 w1 =
      (Ok {| status := 200; body := generated (Some (JString text)) true (cacheKeyOf p) |},
       record (RedisGet (cacheKeyOf p)) w1)).
  { intros expiresAt Hstore now2 bedrock2 body2 Hp2 Huc2 Hlive.
    rewrite (generate_run _ _ _ _ _ _ Hp2 Hne). cbv zeta. rewrite Huc2, Hstore.
    apply Z.ltb_lt in Hlive. rewrite Hlive.
    apply String.eqb_neq in Htext. by rewrite Htext. }
  rewrite (generate_run _ _ _ _ _ _ Hp Hne) in Hrun. cbv zeta in Hrun. rewrite Huc in Hrun.
  assert (Honward : forall w0,
    store w0 = store w ->
    try_catch (forward now1 redis_up1 bedrock1 (JString p)
                 (default (JBool true) (body1 !! "useCache")) (cacheKeyOf p)) on_error w0 =
      (Ok reply1, w1) ->
    store w1 !! cacheKeyOf p = Some (text, (now1 + 3600)%Z)).
  { intros w0 Hw0 Hfw.
    rewrite (forward_cached _ _ _ _ _ _ _ _ _ _ Huc Hfw Hresp Htext).
    by rewrite lookup_insert_eq. }
  assert (Hmiss : forall w0,
    store w0 = store w ->
    try_catch (forward now1 redis_up1 bedrock1 (JString p)
                 (default (JBool true) (body1 !! "useCache")) (cacheKeyOf p)) on_error w0 =
      (Ok reply1, w1) ->
    exists expiresAt,
      store w1 !! cacheKeyOf p = Some (text, expiresAt) /\
      (now1 < expiresAt)%Z /\
      (body reply1 !! "cached" = Some (JBool false) -> expiresAt = (now1 + 3600)%Z) /\
      forall now2 bedrock2 (body2 : gmap string JSON),
        body2 !! "prompt" = Some (JString p) ->
        truthy (default (JBool true) (body2 !! "useCache")) = true ->
        (now2 < expiresAt)%Z ->
        generate now2 true bedrock2 body2 w1 =
        (Ok {| status := 200; body := generated (Some (JString text)) true (cacheKeyOf p) |},
         record (RedisGet (cacheKeyOf p)) w1)).
  { intros w0 Hw0 Hfw. exists (now1 + 3600)%Z.
    pose proof (Honward w0 Hw0 Hfw) as Hst.
    repeat split; [done | lia | by apply Hagain]. }
  destruct redis_up1; last first.
  { injection Hrun as <- <-. simpl in Hresp. by simplify_map_eq. }
  destruct (store w !! cacheKeyOf p) as [[value expiresAt]|] eqn:Hst;
    [| by apply (Hmiss (record (RedisGet (cacheKeyOf p)) w))].
  destruct ((now1 <? expiresAt)%Z && negb (String.eqb value "")) eqn:Hlive;
    [| by apply (Hmiss (record (RedisGet (cacheKeyOf p)) w))].
  injection Hrun as <- <-. cbn [body] in Hresp.
  change (generated (Some (JString value)) true (cacheKeyOf p) !! "response" =
          Some (JString text)) in Hresp.
  rewrite generated_response in Hresp.
  injection Hresp as ->.
  apply andb_true_iff in Hlive as [Hlive _]. apply Z.ltb_lt in Hlive.
  exists expiresAt. repeat split; [done | done | | by apply Hagain].
  cbn [body].
  change (generated (Some (JString text)) true (cacheKeyOf p) !! "cached" =
          Some (JBool false) -> expiresAt = (now1 + 3600)%Z).
  rewrite generated_cached. by intros [=].
Qed.

(** X2. A request that does not use the cache neither reads nor writes the
    store: the store is as before and the only outside call, if any, is
    the POST to the Bedrock service. *)
Theorem generate_without_cache now redis_up bedrock (req_body : gmap string JSON) (w : World) :
  truthy (default (JBool true) (req_body !! "useCache")) = false ->
  let w' := (generate now redis_up bedrock req_body w).2 in
  store w' = store w /\
  (events w' = events w \/
   exists p, req_body !! "prompt" = Some (JString p) /\
             events w' = events w ++ [AxiosPost {[ "prompt" := JString p ]}]).
Proof.
  intros Huc.
  destruct (prompt_cases (req_body !! "prompt"))
    as [Hnone | [(v & Hp & Htruthy & Hkind) | (p & Hp & Hne)]].
  - rewrite generate_without_prompt by done. split; [done | by left].
  - rewrite (generate_not_a_string _ _ _ _ _ _ Hp Htruthy Hkind). split; [done | by left].
  - rewrite (generate_run _ _ _ _ _ _ Hp Hne). cbv zeta. rewrite Huc.
    rewrite forward_run. cbv zeta. rewrite Huc. cbn [andb].
    assert (Hsame : forall r : result Exception Reply,
      store (r, record (AxiosPost {[ "prompt" := JString p ]}) w).2 = store w /\
      (events (r, record (AxiosPost {[ "prompt" := JString p ]}) w).2 = events w \/
       exists p0, Some (JString p) = Some (JString p0) /\
         events (r, record (AxiosPost {[ "prompt" := JString p ]}) w).2 =
         events w ++ [AxiosPost {[ "prompt" := JString p0 ]}])).
    { intros r. split; [done|]. right. by exists p. }
    rewrite Hp.
    destruct (bedrock _) as [[| b | q | s | items | fields] | [[st d]|]]; apply Hsame.
Qed.

(** Lines 165-197 always end in a reply. *)
Lemma forward_replies now redis_up bedrock (prompt useCache : JSON) (cacheKey : string) (w : World) :
  exists reply w',
    try_catch (forward now redis_up bedrock prompt useCache cacheKey) on_error w = (Ok reply, w').
Proof.
  destruct (try_catch _ _ w) as [r w'] eqn:Hrun.
  destruct (forward_reply _ _ _ _ _ _ _ _ _ Hrun) as (reply & -> & _). by exists reply, w'.
Qed.

(** X6. What the handler does with [req.body.prompt]. A missing or falsy
    prompt ([""], [0], [false] and [null] are falsy) is refused with
    status 400 and nothing is called. A non-empty string always gets a
    reply. Any other truthy value (a number, [true], an array, an object)
    makes [getCacheKey] throw before the [try]: no reply is written and
    nothing is called. So a request is answered exactly when its prompt is
    missing, falsy or a string. *)
Theorem generate_prompt_kinds now redis_up bedrock (req_body : gmap string JSON) (w : World) :
  (truthy_opt (req_body !! "prompt") = false ->
   generate now redis_up bedrock req_body w = (Ok prompt_required, w)) /\
  (forall p, req_body !! "prompt" = Some (JString p) -> p <> "" ->
   exists reply w', generate now redis_up bedrock req_body w = (Ok reply, w')) /\
  (forall prompt, req_body !! "prompt" = Some prompt -> truthy prompt = true ->
   (forall p, prompt <> JString p) ->
   generate now redis_up bedrock req_body w = (Err TypeError, w)) /\
  ((exists reply w', generate now redis_up bedrock req_body w = (Ok reply, w')) <->
   truthy_opt (req_body !! "prompt") = false \/
   exists p, req_body !! "prompt" = Some (JString p)).
Proof.
  assert (Hstring : forall p, req_body !! "prompt" = Some (JString p) -> p <> "" ->
    exists reply w', generate now redis_up bedrock req_body w = (Ok reply, w')).
  { intros p Hp Hne. rewrite (generate_run _ _ _ _ _ _ Hp Hne). cbv zeta.
    destruct (truthy _); [| apply forward_replies].
    destruct redis_up; [| by eexists _, _].
    destruct (store w !! cacheKeyOf p) as [[value expiresAt]|]; [| apply forward_replies].
    destruct (_ && _); [by eexists _, _ | apply forward_replies]. }
  split; [apply generate_without_prompt|]. split; [exact Hstring|].
  split; [intros prompt; apply generate_not_a_string|].
  destruct (prompt_cases (req_body !! "prompt"))
    as [Hnone | [(v & Hp & Htruthy & Hkind) | (p & Hp & Hne)]].
  - split; [by left|]. intros _. rewrite generate_without_prompt by done. by eexists _, _.
  - rewrite (generate_not_a_string _ _ _ _ _ _ Hp Htruthy Hkind). split.
    + by intros (? & ? & ?).
    + intros [Hfalsy | [p Hp']].
      * rewrite Hp in Hfalsy. cbn [truthy_opt] in Hfalsy. congruence.
      * rewrite Hp in Hp'. injection Hp' as ->. by destruct (Hkind p).
  - split; [intros _; right; by exists p | intros _; by apply (Hstring p)].
Qed.

Lemma redis_get_reads (now : Z) (key : string) (w : World) :
  (redis_get now true key w).1 =
  Ok match store w !! key with
     | Some (value, expiresAt) => if (now <? expiresAt)%Z then Some value else None
     | None => None
     end.
Proof. done. Qed.

Lemma redis_setEx_writes (now : Z) (key value : string) (seconds : Z) (w : World) :
  store (redis_setEx now true key seconds value w).2 =
  <[key := (value, (now + seconds)%Z)]> (store w).
Proof. done. Qed.

(** C6. A value written with a lifetime of [ttl] seconds is returned by
    a lookup before [written + ttl] and by none from then on; writing the
    key again replaces the value and sets the expiry to the time of that
    write plus [ttl]. The handler writes with a lifetime of 3600 seconds. *)
Theorem cached_value_expires (key value : string) (ttl written later : Z) (w : World) :
  (written + ttl <= later)%Z ->
  let w1 := (redis_setEx written true key ttl value w).2 in
  store w1 !! key = Some (value, (written + ttl)%Z) /\
  (redis_get later true key w1).1 = Ok None /\
  (forall redis_up value', (redis_get later redis_up key w1).1 <> Ok (Some value')) /\
  (forall sooner, (sooner < written + ttl)%Z ->
     (redis_get sooner true key w1).1 = Ok (Some value)) /\
  (forall value' rewritten,
     let w2 := (redis_setEx rewritten true key ttl value' w1).2 in
     store w2 !! key = Some (value', (rewritten + ttl)%Z) /\
     forall sooner, (sooner < rewritten + ttl)%Z ->
       (redis_get sooner true key w2).1 = Ok (Some value')) /\
  (forall redis_up aiResponse,
     cache_response written redis_up key (JString aiResponse) w =
     redis_setEx written redis_up key 3600 aiResponse w).
Proof.
  intros Hlate w1.
  assert (Hw1 : store w1 !! key = Some (value, (written + ttl)%Z)).
  { subst w1. by rewrite redis_setEx_writes, lookup_insert_eq. }
  assert (Hexpired : (later <? written + ttl)%Z = false) by (apply Z.ltb_ge; lia).
  split; [exact Hw1|]. split; [| split; [| split; [| split]]].
  - by rewrite redis_get_reads, Hw1, Hexpired.
  - intros redis_up value'. destruct redis_up; [| done].
    by rewrite redis_get_reads, Hw1, Hexpired.
  - intros sooner Hsooner. rewrite redis_get_reads, Hw1.
    apply Z.ltb_lt in Hsooner. by rewrite Hsooner.
  - intros value' rewritten w2.
    assert (Hw2 : store w2 !! key = Some (value', (rewritten + ttl)%Z)).
    { subst w2. by rewrite redis_setEx_writes, lookup_insert_eq. }
    split; [exact Hw2|].
    intros sooner Hsooner. rewrite redis_get_reads, Hw2.
    apply Z.ltb_lt in Hsooner. by rewrite Hsooner.
  - done.
Qed.

End CacheTheorems.

(** ** What a caller receives *)

Section ReplyFacts.
Import Bedrock.
Variable ToLower : string -> string.
Variable json_Marshal : gmap string JSON -> result string string.
Variable json_Unmarshal : string -> result string (gmap string JSON).
Variable runtime : InvokeModelInput -> result string string.

(** C5, as the code has it. The Bedrock service answers a generation
    request with exactly one of: the response text together with
    [model_used], the display name of the candidate that answered; a
    client error; or a single 500 whose message carries, of all candidate
    errors, only the last. The memoization layer answers with status 200
    and an object made of [response], [cached] and [cacheKey], or with a
    single error object; its replies never carry [model_used], whether
    the text came from the cache or from the Bedrock service. *)
Theorem replies_of_both_services :
  (forall decoded bc reply bc',
     generateHandler ToLower json_Marshal json_Unmarshal runtime decoded bc = (reply, bc') ->
     match reply with
     | HttpJSON body =>
         exists req winner,
           decoded = Ok req /\
           winner ∈ selectModels ToLower (availableModels bc) (Model req) /\
           attempt json_Marshal json_Unmarshal runtime (Prompt req)
             (defaultMaxTokens (MaxTokens req))
             (defaultTemperature (Temperature req)) winner = Ok (Response body) /\
           ModelUsed body = Name winner
     | HttpError msg code =>
         (code = 400%Z /\ (msg = "Invalid request body" \/ msg = "Prompt is required")) \/
         (code = 500%Z /\
          exists req,
            decoded = Ok req /\
            ((selectModels ToLower (availableModels bc) (Model req) = [] /\
              msg = "Error generating response: no available models found") \/
             (exists final e,
                last (selectModels ToLower (availableModels bc) (Model req)) = Some final /\
                attempt json_Marshal json_Unmarshal runtime (Prompt req)
                  (defaultMaxTokens (MaxTokens req))
                  (defaultTemperature (Temperature req)) final = Err e /\
                msg = "Error generating response: all available models failed. Last error: "
                      +:+ e)))
     end) /\
  (forall now redis_up bedrock (req_body : gmap string JSON) w reply w',
     CacheService.generate now redis_up bedrock req_body w = (Ok reply, w') ->
     ((CacheService.status reply = 200%Z /\
       exists response cached cacheKey,
         CacheService.body reply = CacheService.generated response cached cacheKey) \/
      (exists msg, CacheService.body reply = {[ "error" := msg ]})) /\
     CacheService.body reply !! "model_used" = None).
Proof.
  split.
  - intros decoded bc reply bc'. apply generateHandler_reply.
  - intros now redis_up bedrock req_body w reply w' Hrun.
    pose proof (generate_reply _ _ _ _ _ _ _ Hrun) as Hshape.
    split; [exact Hshape|].
    destruct Hshape as [[_ (response & cached & cacheKey & ->)] | [msg ->]].
    + apply generated_model_used.
    + by apply error_body_lookup.
Qed.

End ReplyFacts.

(** ** Candidates and calls of the fallback service *)

Section CandidateFacts.
Import Bedrock.
Variable ToLower : string -> string.
Variable json_Marshal : gmap string JSON -> result string string.
Variable json_Unmarshal : string -> result string (gmap string JSON).
Variable runtime : InvokeModelInput -> result string string.

Abbreviation tryModels := (Bedrock.tryModels json_Marshal json_Unmarshal runtime).
Abbreviation attempt := (Bedrock.attempt json_Marshal json_Unmarshal runtime).
Abbreviation invoked := (Bedrock.invoked json_Marshal).
Abbreviation GenerateText := (Bedrock.GenerateText ToLower json_Marshal json_Unmarshal runtime).
Abbreviation generateHandler :=
  (Bedrock.generateHandler ToLower json_Marshal json_Unmarshal runtime).

Lemma found_false (id : string) (acc : list ModelInfo) :
  found id acc = false <-> id ∉ ID <$> acc.
Proof.
  induction acc as [|x acc IH]; simpl.
  - split; [intros _; apply not_elem_of_nil | done].
  - rewrite not_elem_of_cons.
    destruct (String.eqb_spec (ID x) id) as [Heq | Hne].
    + split; [done | intros [Hne _]; by destruct Hne].
    + rewrite IH. split; [intros ?; split; [congruence | done] | by intros [_ ?]].
Qed.

Lemma addAvailable_extends (models acc : list ModelInfo) :
  exists extra, addAvailable models acc = acc ++ extra.
Proof.
  revert acc. induction models as [|model rest IH]; intros acc; simpl.
  - exists []. by rewrite app_nil_r.
  - destruct (Available model); [| apply IH].
    destruct (found (ID model) acc); [apply IH|].
    destruct (IH (acc ++ [model])) as [extra ->].
    exists (model :: extra). by rewrite <- app_assoc.
Qed.

Lemma addAvailable_NoDup (models acc : list ModelInfo) :
  NoDup (ID <$> acc) -> NoDup (ID <$> addAvailable models acc).
Proof.
  revert acc. induction models as [|model rest IH]; intros acc Hnd; simpl; [done|].
  apply IH. destruct (Available model); [| done].
  destruct (found (ID model) acc) eqn:Hf; [done|].
  rewrite fmap_app. apply NoDup_app. split; [done|]. split.
  - intros id Hin Hin'. apply list_elem_of_singleton in Hin'. subst id.
    by apply found_false in Hf.
  - apply NoDup_singleton.
Qed.

Lemma findPreferred_nil_NoDup preferredModel models :
  NoDup (ID <$> findPreferred ToLower preferredModel models []).
Proof.
  rewrite findPreferred_list_find.
  destruct (list_find _ models) as [[i chosen]|]; [apply NoDup_singleton | apply NoDup_nil_2].
Qed.

Lemma selectModels_NoDup models preferredModel :
  NoDup (ID <$> selectModels ToLower models preferredModel).
Proof.
  unfold selectModels. apply addAvailable_NoDup.
  destruct (String.eqb preferredModel ""); [apply NoDup_nil_2 | apply findPreferred_nil_NoDup].
Qed.


(** Without a match the first loop adds nothing. *)
Lemma findPreferred_none preferredModel models :
  (forall m, m ∈ models -> isPreferred ToLower preferredModel m = false) ->
  findPreferred ToLower preferredModel models [] = [].
Proof.
  induction models as [|model rest IH]; intros Hnone; simpl; [done|].
  rewrite (Hnone model) by (by left). apply IH. intros m Hm. apply Hnone. by right.
Qed.

(** With a match the candidate list starts with the first one. *)
Lemma selectModels_head preferredModel models i chosen :
  preferredModel <> "" ->
  list_find (fun m => isPreferred ToLower preferredModel m = true) models = Some (i, chosen) ->
  exists rest, selectModels ToLower models preferredModel = chosen :: rest.
Proof.
  intros Hne Hfind. unfold selectModels.
  apply String.eqb_neq in Hne. rewrite Hne.
  rewrite findPreferred_list_find, Hfind. simpl.
  destruct (addAvailable_extends models [chosen]) as [extra ->]. by exists extra.
Qed.

(** The calls of the loop: those of a prefix of the candidates. *)
Lemma tryModels_calls prompt maxTokens temperature modelsToTry lastError bc :
  exists tried,
    tried `prefix_of` modelsToTry /\
    (tryModels prompt maxTokens temperature modelsToTry lastError bc).2 =
    afterCalls (concat (invoked prompt maxTokens temperature <$> tried)) bc.
Proof.
  revert lastError bc. induction modelsToTry as [|model rest IH]; intros lastError bc.
  - exists []. split; [done|]. simpl. by rewrite afterCalls_nil.
  - destruct (attempt prompt maxTokens temperature model) as [text | e] eqn:Hat.
    + rewrite (tryModels_succeeded _ _ _ _ _ _ _ _ _ _ _ Hat).
      exists [model]. split; [by apply prefix_cons, prefix_nil|].
      simpl. by rewrite app_nil_r.
    + rewrite (tryModels_failed _ _ _ _ _ _ _ _ _ _ _ Hat).
      destruct (IH (Some e) (afterCalls (invoked prompt maxTokens temperature model) bc))
        as (tried & Hpre & ->).
      exists (model :: tried). split; [by apply prefix_cons|].
      rewrite afterCalls_app. done.
Qed.

Lemma invoked_ids prompt maxTokens temperature (tried : list ModelInfo) :
  ModelId <$> concat (invoked prompt maxTokens temperature <$> tried) `sublist_of` ID <$> tried.
Proof.
  induction tried as [|m tried IH]; simpl; [done|].
  unfold Bedrock.invoked at 1. destruct (json_Marshal _); simpl.
  - by apply sublist_skip.
  - by apply sublist_cons.
Qed.

Lemma invoked_elem_of prompt maxTokens temperature (tried : list ModelInfo) call :
  call ∈ concat (invoked prompt maxTokens temperature <$> tried) ->
  exists m, m ∈ tried /\ ModelId call = ID m /\
    json_Marshal (requestBody m prompt maxTokens temperature) = Ok (Body call).
Proof.
  induction tried as [|m tried IH]; simpl; [by intros ?%elem_of_nil|].
  rewrite elem_of_app. intros [Hin | Hin].
  - unfold Bedrock.invoked in Hin.
    destruct (json_Marshal _) as [bodyBytes|] eqn:Hm; [| by apply elem_of_nil in Hin].
    apply list_elem_of_singleton in Hin as ->. exists m. split; [by left | done].
  - destruct (IH Hin) as (m' & ? & ?). exists m'. split; [by right | done].
Qed.


(** Every available descriptor's id is among the candidates. *)
Lemma addAvailable_covers (models acc : list ModelInfo) m :
  m ∈ models -> Available m = true -> ID m ∈ ID <$> addAvailable models acc.
Proof.
  revert acc. induction models as [|model rest IH]; intros acc Hin Hav; [by apply elem_of_nil in Hin|].
  apply elem_of_cons in Hin as [-> | Hin]; [| by apply IH].
  simpl. rewrite Hav.
  destruct (found (ID model) acc) eqn:Hf.
  - destruct (addAvailable_extends rest acc) as [extra ->].
    rewrite fmap_app, elem_of_app. left.
    destruct (decide (ID model ∈ ID <$> acc)) as [? | Hnot]; [done|].
    apply found_false in Hnot. congruence.
  - destruct (addAvailable_extends rest (acc ++ [model])) as [extra ->].
    rewrite !fmap_app, !elem_of_app. left. right. by left.
Qed.

Lemma selectModels_nil_iff models preferredModel :
  selectModels ToLower models preferredModel = [] <->
  Forall (fun m => Available m = false) models.
Proof.
  split; [| apply selectModels_none_available].
  intros Hnil. apply Forall_forall. intros m Hin.
  destruct (Available m) eqn:Hav; [| done].
  pose proof (addAvailable_covers models
    (if String.eqb preferredModel "" then []
     else findPreferred ToLower preferredModel models []) m Hin Hav) as Hcov.
  unfold selectModels in Hnil. rewrite Hnil in Hcov. by apply elem_of_nil in Hcov.
Qed.

Lemma selectModels_no_preference models :
  NoDup (ID <$> models) ->
  selectModels ToLower models "" = filter (fun m => Available m = true) models.
Proof.
  intros Hnd. unfold selectModels. simpl.
  rewrite addAvailable_filter by done. simpl.
  apply list_filter_iff. intros m. simpl. tauto.
Qed.

(** X8. The calls of one [GenerateText]: they go to candidates only, in
    candidate order and at most one per candidate (there is no retry), so
    no model id is called twice; every call goes to a descriptor that is
    marked available, and carries the request built for that descriptor
    from the prompt with [max_tokens] 0 replaced by 2000 and [temperature]
    0 replaced by 0.7. *)
Theorem GenerateText_calls prompt preferredModel maxTokens temperature bc :
  exists calls,
    (GenerateText prompt preferredModel maxTokens temperature bc).2 = afterCalls calls bc /\
    ModelId <$> calls `sublist_of`
      ID <$> selectModels ToLower (availableModels bc) preferredModel /\
    NoDup (ModelId <$> calls) /\
    Forall (fun call =>
      exists m, m ∈ availableModels bc /\ Available m = true /\
        ModelId call = ID m /\
        json_Marshal (requestBody m prompt (defaultMaxTokens maxTokens)
                        (defaultTemperature temperature)) = Ok (Body call)) calls.
Proof.
  rewrite GenerateText_unfold.
  set (modelsToTry := selectModels ToLower (availableModels bc) preferredModel).
  destruct (length modelsToTry =? 0)%nat.
  { exists []. cbn [snd]. rewrite afterCalls_nil.
    split; [done|]. split; [apply sublist_nil_l|]. split; [apply NoDup_nil_2 | done]. }
  destruct (tryModels_calls prompt (defaultMaxTokens maxTokens)
              (defaultTemperature temperature) modelsToTry None bc) as (tried & Hpre & ->).
  exists (concat (invoked prompt (defaultMaxTokens maxTokens)
                    (defaultTemperature temperature) <$> tried)).
  assert (Hsub : ModelId <$> concat (invoked prompt (defaultMaxTokens maxTokens)
                    (defaultTemperature temperature) <$> tried) `sublist_of` ID <$> modelsToTry).
  { etrans; [apply invoked_ids|]. apply fmap_sublist.
    destruct Hpre as [rest ->]. by apply sublist_inserts_r. }
  split; [done|]. split; [exact Hsub|]. split.
  - eapply sublist_NoDup; [apply selectModels_NoDup | exact Hsub].
  - apply Forall_forall. intros call Hcall.
    apply invoked_elem_of in Hcall as (m & Hm & Hid & Hbody).
    assert (Hsel : m ∈ modelsToTry).
    { destruct Hpre as [rest ->]. apply elem_of_app. by left. }
    apply selectModels_elem_of in Hsel as [Hin Hav]. by exists m.
Qed.

(** X10. When the preference matches an available descriptor and the
    first such descriptor answers, its text and display name are the
    result, and exactly one call was made, to that descriptor. *)
Theorem preferred_model_is_tried_first
    prompt preferredModel maxTokens temperature bc i chosen text :
  preferredModel <> "" ->
  list_find (fun m => isPreferred ToLower preferredModel m = true) (availableModels bc) =
    Some (i, chosen) ->
  attempt prompt (defaultMaxTokens maxTokens) (defaultTemperature temperature) chosen = Ok text ->
  exists bodyBytes,
    json_Marshal (requestBody chosen prompt (defaultMaxTokens maxTokens)
                    (defaultTemperature temperature)) = Ok bodyBytes /\
    GenerateText prompt preferredModel maxTokens temperature bc =
    ((text, Name chosen, None),
     afterCalls [{| ModelId := ID chosen; Body := bodyBytes |}] bc).
Proof.
  intros Hne Hfind Hat.
  destruct (selectModels_head preferredModel (availableModels bc) i chosen Hne Hfind)
    as [rest Hsel].
  destruct (json_Marshal (requestBody chosen prompt (defaultMaxTokens maxTokens)
              (defaultTemperature temperature))) as [bodyBytes | err] eqn:Hm.
  2: { unfold Bedrock.attempt in Hat. by rewrite Hm in Hat. }
  exists bodyBytes. split; [done|].
  rewrite GenerateText_unfold, Hsel. cbn [length Nat.eqb].
  rewrite (tryModels_succeeded _ _ _ _ _ _ _ _ _ _ _ Hat).
  unfold Bedrock.invoked. by rewrite Hm.
Qed.

(** X11. A preference that matches no available descriptor is ignored:
    the request is served exactly as one without a preference, and no
    error is raised for the unknown name. *)
Theorem unmatched_preference_is_ignored prompt preferredModel maxTokens temperature bc :
  (forall m, m ∈ availableModels bc -> isPreferred ToLower preferredModel m = false) ->
  GenerateText prompt preferredModel maxTokens temperature bc =
  GenerateText prompt "" maxTokens temperature bc.
Proof.
  intros Hnone. rewrite !GenerateText_unfold.
  assert (Hsel : selectModels ToLower (availableModels bc) preferredModel =
                 selectModels ToLower (availableModels bc) "").
  { unfold selectModels. destruct (String.eqb preferredModel ""); [done|].
    by rewrite findPreferred_none. }
  by rewrite Hsel.
Qed.

End CandidateFacts.

Section OrderFacts.
Import Bedrock.
Variable ToLower : string -> string.

(** X9. With distinct ids a preference only reorders: whatever
    [preferredModel] is, the candidates are the available descriptors,
    each once; without a preference they are in catalogue order. *)
Theorem preference_only_reorders (models : list ModelInfo) (preferredModel : string) :
  NoDup (ID <$> models) ->
  selectModels ToLower models preferredModel ≡ₚ
    filter (fun m => Available m = true) models /\
  selectModels ToLower models "" = filter (fun m => Available m = true) models.
Proof.
  intros Hnd. split; [| by apply selectModels_no_preference].
  unfold selectModels.
  destruct (String.eqb preferredModel "") eqn:Hp.
  { change (addAvailable models []) with (selectModels ToLower models "").
    by rewrite selectModels_no_preference. }
  rewrite findPreferred_list_find.
  destruct (list_find _ models) as [[i chosen]|] eqn:Hfind.
  - apply list_find_Some in Hfind as (Hi & Hpref & _).
    rewrite addAvailable_filter by done. cbn [app].
    rewrite (filter_skip_chosen models i chosen) by done.
    assert (Hav : Available chosen = true).
    { unfold isPreferred in Hpref. by apply andb_true_iff in Hpref as [? _]. }
    rewrite (delete_Permutation models i chosen Hi) at 2.
    rewrite filter_cons. by rewrite decide_True by done.
  - rewrite addAvailable_filter by done. simpl.
    erewrite list_filter_iff; [done|]. intros m. simpl. tauto.
Qed.

End OrderFacts.

Section HandlerFacts.
Import Bedrock.
Variable ToLower : string -> string.
Variable json_Marshal : gmap string JSON -> result string string.
Variable json_Unmarshal : string -> result string (gmap string JSON).
Variable runtime : InvokeModelInput -> result string string.

Abbreviation GenerateText := (Bedrock.GenerateText ToLower json_Marshal json_Unmarshal runtime).

Lemma map_fmap {A B} (f : A -> B) (l : list A) : map f l = f <$> l.
Proof. induction l as [|x l IH]; simpl; [done | by rewrite IH]. Qed.

Lemma healthHandler_run (bc : BedrockClient) :
  healthHandler bc =
  ({[ "status" := JString "healthy";
      "service" := JString "bedrock-service";
      "available_models" :=
        encodeAvailable (Name <$> filter (fun m => Available m = true) (availableModels bc)) ]},
   bc).
Proof.
  unfold healthHandler, GetAvailableModels, mbind, Go_bind, readModels, mret, Go_ret.
  cbv beta iota. by rewrite map_fmap.
Qed.

Lemma filter_available_nil (models : list ModelInfo) :
  filter (fun m => Available m = true) models = [] <->
  Forall (fun m => Available m = false) models.
Proof.
  induction models as [|m models IH]; [by split|].
  rewrite filter_cons, Forall_cons. destruct (Available m) eqn:Hav.
  - rewrite decide_True by done. split; [done | by intros [? _]].
  - rewrite decide_False by congruence. rewrite IH. tauto.
Qed.

Lemma encodeAvailable_null (names : list string) :
  encodeAvailable names = JNull <-> names = [].
Proof. by destruct names. Qed.

(** The two errors of [GenerateText] are told apart by their text. *)
Lemma GenerateText_no_models prompt preferredModel maxTokens temperature bc :
  (GenerateText prompt preferredModel maxTokens temperature bc).1 =
    ("", "", Some "no available models found") <->
  selectModels ToLower (availableModels bc) preferredModel = [].
Proof.
  rewrite GenerateText_unfold.
  destruct (selectModels ToLower (availableModels bc) preferredModel) as [|m rest] eqn:Hsel.
  { done. }
  cbn [length Nat.eqb]. split; [| done]. intros Hrun. exfalso.
  assert (Hall : Forall (Bedrock.fails json_Marshal json_Unmarshal runtime prompt
                   (defaultMaxTokens maxTokens) (defaultTemperature temperature)) (m :: rest)).
  { apply (tryModels_error_iff _ _ _ _ _ _ _ None bc). by rewrite Hrun. }
  rewrite tryModels_exhausted in Hrun by done. by injection Hrun.
Qed.

(** X13. [healthHandler] reads and never writes: the status is
    "healthy" whatever the flags are, and [available_models] holds the
    display names of the available descriptors in catalogue order. With
    no available descriptor it is [null] (a nil slice), and that is the
    case exactly when every [GenerateText] fails with "no available models
    found". *)
Theorem healthHandler_agrees_with_GenerateText (bc : BedrockClient) :
  let reply := (healthHandler bc).1 in
  (healthHandler bc).2 = bc /\
  reply !! "status" = Some (JString "healthy") /\
  reply !! "available_models" =
    Some (encodeAvailable (Name <$> filter (fun m => Available m = true) (availableModels bc))) /\
  (reply !! "available_models" = Some JNull <->
   forall prompt preferredModel maxTokens temperature,
     (GenerateText prompt preferredModel maxTokens temperature bc).1 =
     ("", "", Some "no available models found")).
Proof.
  rewrite healthHandler_run. cbn [fst snd].
  assert (Hlookup : forall v : JSON,
    ({[ "status" := JString "healthy"; "service" := JString "bedrock-service";
        "available_models" := v ]} : gmap string JSON) !! "available_models" = Some v).
  { intros v. by simplify_map_eq. }
  split; [done|]. split; [by simplify_map_eq|]. split; [apply Hlookup|].
  rewrite Hlookup. split.
  - intros [= Hnull]. apply encodeAvailable_null, fmap_nil_inv, filter_available_nil in Hnull.
    intros prompt preferredModel maxTokens temperature.
    apply GenerateText_no_models. by apply selectModels_nil_iff.
  - intros Hfail. f_equal. apply encodeAvailable_null.
    specialize (Hfail "" "" 0%Z 0%Q).
    apply GenerateText_no_models, selectModels_nil_iff, filter_available_nil in Hfail.
    by rewrite Hfail.
Qed.

Lemma modelEntry_inj : Inj (=) (=) modelEntry.
Proof.
  intros [id1 name1 av1 api1] [id2 name2 av2 api2]. unfold modelEntry. cbn [ID Name Available MessageAPI].
  intros Heq.
  pose (field := fun (k : string) (j : JSON) =>
    match j with JObject fields => fields !! k | _ => None end).
  pose proof (f_equal (field "id") Heq) as Hid.
  pose proof (f_equal (field "name") Heq) as Hname.
  pose proof (f_equal (field "available") Heq) as Hav.
  pose proof (f_equal (field "api_type") Heq) as Hapi.
  clear Heq. subst field. cbv beta iota in Hid, Hname, Hav, Hapi.
  simplify_map_eq.
  f_equal. by destruct api1, api2.
Qed.

Lemma modelEntry_fields (m : ModelInfo) :
  exists fields,
    modelEntry m = JObject fields /\
    fields !! "id" = Some (JString (ID m)) /\
    fields !! "name" = Some (JString (Name m)) /\
    fields !! "available" = Some (JBool (Available m)) /\
    fields !! "api_type" = Some (JString (if MessageAPI m then "messages" else "legacy")) /\
    fields !! "features" =
      Some (JArray [JString "conversation-context"; JString "file-analysis"]).
Proof.
  eexists. split; [reflexivity|]. by repeat split; simplify_map_eq.
Qed.

(** X14. [modelsHandler] does not write the client and lists one entry
    per descriptor, in catalogue order: the entry at a position holds the
    id, the display name and the flag of the descriptor at that position,
    "messages" or "legacy" for its format, and the two features. An entry
    determines its descriptor: two clients give the same reply exactly
    when they hold the same descriptors, flags included. *)
Theorem modelsHandler_determines_descriptors (bc1 bc2 : BedrockClient) :
  (modelsHandler bc1).2 = bc1 /\
  (exists entries,
     (modelsHandler bc1).1 = {[ "models" := JArray entries ]} /\
     length entries = length (availableModels bc1) /\
     forall i m, availableModels bc1 !! i = Some m ->
       exists fields,
         entries !! i = Some (JObject fields) /\
         fields !! "id" = Some (JString (ID m)) /\
         fields !! "name" = Some (JString (Name m)) /\
         fields !! "available" = Some (JBool (Available m)) /\
         fields !! "api_type" =
           Some (JString (if MessageAPI m then "messages" else "legacy")) /\
         fields !! "features" =
           Some (JArray [JString "conversation-context"; JString "file-analysis"])) /\
  ((modelsHandler bc1).1 = (modelsHandler bc2).1 <->
   availableModels bc1 = availableModels bc2).
Proof.
  unfold modelsHandler, mbind, Go_bind, readModels, mret, Go_ret. cbn [fst snd].
  split; [done|]. split.
  { eexists. split; [done|]. split; [by rewrite length_fmap|].
    intros i m Hi. destruct (modelEntry_fields m) as (fields & Hentry & Hfields).
    exists fields. split; [| exact Hfields].
    by rewrite list_lookup_fmap, Hi, <- Hentry. }
  split; [| by intros ->].
  intros Heq. apply (f_equal (lookup "models")) in Heq.
  rewrite !lookup_singleton_eq in Heq. injection Heq as Heq.
  eapply list_fmap_eq_inj; [apply modelEntry_inj | done].
Qed.

End HandlerFacts.

Section ProberFacts.
Import Bedrock.
Variable json_Marshal : gmap string JSON -> result string string.

(** The descriptor without its flag. *)
Lemma probed_flag_irrelevant runtime (m1 m2 : ModelInfo) :
  ID m1 = ID m2 -> Name m1 = Name m2 -> MessageAPI m1 = MessageAPI m2 ->
  probed json_Marshal runtime m1 = probed json_Marshal runtime m2.
Proof.
  intros Hid Hname Hapi. unfold probed, probeInput, probeBody.
  by rewrite Hid, Hname, Hapi.
Qed.

(** X12. The prober overwrites the flags: after it ran, each flag is
    the outcome of that run's probe call for the descriptor, whatever the
    flags were before; probing again with the same answers changes
    nothing. *)
Theorem TestModelAvailability_last_probe_wins
    (runtime1 runtime2 : InvokeModelInput -> result string string) (bc : BedrockClient) :
  let once := (TestModelAvailability json_Marshal runtime2 bc).2 in
  let twice := (TestModelAvailability json_Marshal runtime2
                  (TestModelAvailability json_Marshal runtime1 bc).2).2 in
  availableModels twice = availableModels once /\
  forall i m, availableModels bc !! i = Some m ->
    availableModels twice !! i =
    Some {| ID := ID m; Name := Name m;
            Available := is_ok (runtime2 (probeInput json_Marshal m));
            MessageAPI := MessageAPI m |}.
Proof.
  intros once twice. subst once twice.
  rewrite !TestModelAvailability_run. cbn [snd availableModels].
  rewrite <- list_fmap_compose.
  assert (Hsame : forall m, (probed json_Marshal runtime2 ∘ probed json_Marshal runtime1) m =
                            probed json_Marshal runtime2 m).
  { intros m. unfold compose. by apply probed_flag_irrelevant. }
  rewrite (list_fmap_ext _ _ _ (fun _ m _ => Hsame m)).
  split; [done|].
  intros i m Hi. by rewrite list_lookup_fmap, Hi.
Qed.

End ProberFacts.

Section LogFacts.
Import Bedrock.

Lemma length_substring_0 (n : nat) (s : string) :
  (n <= String.length s)%nat -> String.length (substring 0 n s) = n.
Proof.
  revert s. induction n as [|n IH]; intros s Hn.
  - by destruct s.
  - destruct s as [|c s]; simpl in *; [lia|]. rewrite IH; lia.
Qed.

Lemma substring_0_all (s : string) : substring 0 (String.length s) s = s.
Proof. induction s as [|c s IH]; simpl; [done | by rewrite IH]. Qed.

Lemma sliceTo_min (n : Z) (s : string) :
  (0 <= n)%Z ->
  exists shown,
    sliceTo s (min n (len s)) = Some shown /\
    String.prefix shown s = true /\
    len shown = min n (len s) /\
    (len shown <= n)%Z /\
    ((len s <= n)%Z -> shown = s).
Proof.
  intros Hn. unfold sliceTo, min, len.
  set (l := String.length s).
  assert (Hrange : (0 <= (if (n <? Z.of_nat l)%Z then n else Z.of_nat l) <= Z.of_nat l)%Z).
  { destruct (Z.ltb_spec n (Z.of_nat l)); lia. }
  destruct Hrange as [Hlo Hhi].
  apply Z.leb_le in Hlo as Hlo'. apply Z.leb_le in Hhi as Hhi'.
  rewrite Hlo', Hhi'. cbn [andb].
  eexists. split; [reflexivity|].
  assert (Hlen : String.length
            (substring 0 (Z.to_nat (if (n <? Z.of_nat l)%Z then n else Z.of_nat l)) s) =
          Z.to_nat (if (n <? Z.of_nat l)%Z then n else Z.of_nat l)).
  { apply length_substring_0. subst l. lia. }
  split; [| split; [| split]].
  - apply prefix_correct. by rewrite Hlen.
  - rewrite Hlen. lia.
  - rewrite Hlen. destruct (Z.ltb_spec n (Z.of_nat l)); lia.
  - intros Hshort. destruct (Z.ltb_spec n (Z.of_nat l)); [lia|].
    rewrite Nat2Z.id. apply substring_0_all.
Qed.

(** X15. The log line of [generateHandler] never panics: the slice
    bound [min(100, len(prompt))] (50 in the single-model service) is
    within the prompt for every prompt, and what is logged is a prefix of
    the prompt of at most that many bytes, the whole prompt when it is
    short enough. *)
Theorem loggedPrompt_in_range (prompt : string) :
  (exists shown,
     loggedPrompt prompt = Some shown /\
     String.prefix shown prompt = true /\
     (len shown <= 100)%Z /\
     ((len prompt <= 100)%Z -> shown = prompt)) /\
  (exists shown,
     BedrockV1.loggedPrompt prompt = Some shown /\
     String.prefix shown prompt = true /\
     (len shown <= 50)%Z /\
     ((len prompt <= 50)%Z -> shown = prompt)).
Proof.
  split.
  - destruct (sliceTo_min 100 prompt ltac:(lia)) as (shown & ? & ? & ? & ? & ?). by exists shown.
  - destruct (sliceTo_min 50 prompt ltac:(lia)) as (shown & ? & ? & ? & ? & ?). by exists shown.
Qed.

End LogFacts.

Section V1Facts.
Import BedrockV1.
Variable json_Marshal : gmap string JSON -> result string string.
Variable json_Unmarshal : string -> result string (gmap string JSON).
Variable runtime : Bedrock.InvokeModelInput -> result string string.

Abbreviation GenerateText1 := (BedrockV1.GenerateText json_Marshal json_Unmarshal runtime).
Abbreviation generateHandler1 := (BedrockV1.generateHandler json_Marshal json_Unmarshal runtime).

(** X16. The single-model service never fails on the shape of a
    response: where the fallback service's message-API parser finds a
    text it returns the same text, and where that parser gives up it
    returns "Unable to generate response" as a success, which the handler
    sends with status 200. *)
Theorem V1_GenerateText_placeholder (bc : BedrockClient) (prompt bodyBytes respBody : string)
    (response : gmap string JSON) (model : Bedrock.ModelInfo) :
  Bedrock.MessageAPI model = true ->
  json_Marshal (requestBody prompt) = Ok bodyBytes ->
  runtime {| Bedrock.ModelId := modelID; Bedrock.Body := bodyBytes |} = Ok respBody ->
  json_Unmarshal respBody = Ok response ->
  GenerateText1 (Some bc) prompt =
    Returns (default "Unable to generate response" (Bedrock.extractText model response), None) /\
  (prompt <> "" ->
   generateHandler1 (Some bc) (Ok prompt) =
     Returns (HttpJSON (default "Unable to generate response"
                          (Bedrock.extractText model response)))).
Proof.
  intros Hapi Hm Hr Hu.
  assert (Hgen : GenerateText1 (Some bc) prompt =
    Returns (default "Unable to generate response" (Bedrock.extractText model response), None)).
  { unfold BedrockV1.GenerateText, Bedrock.extractText. rewrite Hm, Hr, Hu, Hapi.
    destruct (response !! "content") as [[| | | |[|[| | | | |fields] rest]|]|]; try done.
    by destruct (fields !! "text") as [[| | |s| |]|]. }
  split; [done|].
  intros Hne. unfold BedrockV1.generateHandler.
  apply String.eqb_neq in Hne. by rewrite Hne, Hgen.
Qed.

(** With a client [GenerateText] returns. *)
Lemma V1_GenerateText_returns (bc : BedrockClient) (prompt : string) :
  exists text err, GenerateText1 (Some bc) prompt = Returns (text, err).
Proof.
  unfold BedrockV1.GenerateText.
  destruct (json_Marshal _) as [bodyBytes | e]; [| by eexists _, _].
  destruct (runtime _) as [respBody | e]; [| by eexists _, _].
  destruct (json_Unmarshal respBody) as [response | e]; [| by eexists _, _].
  destruct (response !! "content") as [[| | | |[|[| | | | |fields] rest]|]|];
    try (by eexists _, _).
  destruct (fields !! "text") as [[| | |s| |]|]; by eexists _, _.
Qed.

(** X17. The replies of the single-model handler. A body that cannot be
    decoded and an empty prompt are answered with their 400, with or
    without a client. With a client a request with a prompt is answered
    with the text of [GenerateText] and status 200, or, when it returned
    an error, with status 500 and "Error generating response", without
    the error's detail. The handler panics exactly when it was registered
    with a nil client and the request is valid (decoded, prompt not
    empty, request marshalled). There is no other error reply. *)
Theorem V1_generateHandler_outcomes (bc : option BedrockClient) (decoded : result string string) :
  (is_ok decoded = false ->
   generateHandler1 bc decoded = Returns (HttpError "Invalid request body" 400)) /\
  (decoded = Ok "" ->
   generateHandler1 bc decoded = Returns (HttpError "Prompt is required" 400)) /\
  (forall prompt client, decoded = Ok prompt -> prompt <> "" -> bc = Some client ->
   exists text err,
     GenerateText1 bc prompt = Returns (text, err) /\
     generateHandler1 bc decoded =
     Returns (match err with
              | Some _ => HttpError "Error generating response" 500
              | None => HttpJSON text
              end)) /\
  (forall msg,
     generateHandler1 bc decoded = Panics msg <->
     bc = None /\
     msg = "runtime error: invalid memory address or nil pointer dereference" /\
     exists prompt bodyBytes,
       decoded = Ok prompt /\ prompt <> "" /\
       json_Marshal (requestBody prompt) = Ok bodyBytes) /\
  (forall msg code,
     generateHandler1 bc decoded = Returns (HttpError msg code) ->
     (code = 400%Z /\ msg = "Invalid request body" /\ is_ok decoded = false) \/
     (code = 400%Z /\ msg = "Prompt is required" /\ decoded = Ok "") \/
     (code = 500%Z /\ msg = "Error generating response")).
Proof.
  split; [| split; [| split; [| split]]].
  - by destruct decoded.
  - by intros ->.
  - intros prompt client -> Hne ->.
    destruct (V1_GenerateText_returns client prompt) as (text & err & Hgen).
    exists text, err. split; [done|].
    unfold BedrockV1.generateHandler. apply String.eqb_neq in Hne. rewrite Hne, Hgen.
    by destruct err.
  - intros msg. unfold BedrockV1.generateHandler, BedrockV1.GenerateText.
    destruct decoded as [prompt | e].
    2: { split; [done | by intros (_ & _ & ? & ? & ? & _)]. }
    destruct (String.eqb_spec prompt "") as [-> | Hne].
    { split; [done | by intros (_ & _ & ? & ? & [= <-] & ? & _)]. }
    destruct (json_Marshal (requestBody prompt)) as [bodyBytes | err] eqn:Hm.
    2: { split; [done|]. intros (_ & _ & p & b & [= <-] & _ & Hm'). congruence. }
    destruct bc as [bc|].
    + split; [| by intros [? _]].
      destruct (runtime _) as [respBody | err]; [| done].
      destruct (json_Unmarshal respBody) as [response | err]; [| done].
      destruct (response !! "content") as [[| | | |[|[| | | | |fields] rest]|]|]; try done.
      by destruct (fields !! "text") as [[| | |s| |]|].
    + split.
      * intros [= <-]. split; [done|]. split; [done|]. by exists prompt, bodyBytes.
      * by intros (_ & -> & _).
  - intros msg code. unfold BedrockV1.generateHandler.
    destruct decoded as [prompt | e].
    2: { intros [= <- <-]. by left. }
    destruct (String.eqb_spec prompt "") as [-> | Hne].
    { intros [= <- <-]. right. by left. }
    destruct (GenerateText1 bc prompt) as [[response [err|]] | panic]; [| done | done].
    intros [= <- <-]. right. by right.
Qed.

End V1Facts.

(** ** The routes of the memoization layer *)

Section CacheRoutes.
Import CacheService.

Lemma generated_cacheKey r c k : generated r c k !! "cacheKey" = Some (JString k).
Proof. unfold generated. destruct r; by simplify_map_eq. Qed.

(** What lines 165-197 do to the store: nothing, or one write of a
    non-empty answer under the request's key. *)
Lemma forward_store now redis_up bedrock (prompt useCache : JSON) (cacheKey : string) (w : World) :
  let r := try_catch (forward now redis_up bedrock prompt useCache cacheKey) on_error w in
  store r.2 = store w \/
  exists fields value,
    truthy useCache = true /\ redis_up = true /\
    bedrock {[ "prompt" := prompt ]} = Ok (JObject fields) /\
    fields !! "response" = Some (JString value) /\ value <> "" /\
    r.1 = Ok {| status := 200; body := generated (Some (JString value)) false cacheKey |} /\
    store r.2 = <[cacheKey := (value, (now + 3600)%Z)]> (store w).
Proof.
  cbv zeta. rewrite forward_run. cbv zeta.
  destruct (bedrock _) as [data | [[st d]|]] eqn:Hb; [| by left | by left].
  destruct data as [| b | q | s | items | fields]; try (by left);
    try (destruct (_ && _); by left).
  destruct (truthy useCache) eqn:Huc; [| by left]. cbn [andb].
  destruct (fields !! "response") as [[| b | q | value | items | inner]|] eqn:Hresp;
    try (by left); try (destruct (truthy_opt _); by left).
  cbn [truthy_opt truthy].
  destruct (String.eqb_spec value "") as [-> | Hne]; [by left|]. cbn [negb].
  destruct redis_up; [| by left].
  right. by exists fields, value.
Qed.


(** X18. What a request can do to the store: nothing, or one write, under
    the key of its own prompt and with a lifetime of 3600 seconds, of the
    non-empty text the Bedrock service has just answered with. Errors,
    empty answers and answers to requests that opted out are never
    cached, and no entry is ever removed. *)
Theorem generate_writes_only_fresh_answers now redis_up bedrock
    (req_body : gmap string JSON) (w : World) :
  let r := generate now redis_up bedrock req_body w in
  store r.2 = store w \/
  exists p fields value,
    req_body !! "prompt" = Some (JString p) /\ p <> "" /\
    truthy (default (JBool true) (req_body !! "useCache")) = true /\
    bedrock {[ "prompt" := JString p ]} = Ok (JObject fields) /\
    fields !! "response" = Some (JString value) /\ value <> "" /\
    r.1 = Ok {| status := 200;
                body := generated (Some (JString value)) false (cacheKeyOf p) |} /\
    store r.2 = <[cacheKeyOf p := (value, (now + 3600)%Z)]> (store w).
Proof.
  cbv zeta.
  destruct (prompt_cases (req_body !! "prompt"))
    as [Hnone | [(v & Hp & Htruthy & Hkind) | (p & Hp & Hne)]].
  - rewrite generate_without_prompt by done. by left.
  - rewrite (generate_not_a_string _ _ _ _ _ _ Hp Htruthy Hkind). by left.
  - rewrite (generate_run _ _ _ _ _ _ Hp Hne). cbv zeta.
    set (useCache := default (JBool true) (req_body !! "useCache")).
    assert (Honward : forall w0, store w0 = store w ->
      let r := try_catch (forward now redis_up bedrock (JString p) useCache (cacheKeyOf p))
                 on_error w0 in
      store r.2 = store w \/
      exists p0 fields value,
        Some (JString p) = Some (JString p0) /\ p0 <> "" /\
        truthy useCache = true /\
        bedrock {[ "prompt" := JString p0 ]} = Ok (JObject fields) /\
        fields !! "response" = Some (JString value) /\ value <> "" /\
        r.1 = Ok {| status := 200;
                    body := generated (Some (JString value)) false (cacheKeyOf p0) |} /\
        store r.2 = <[cacheKeyOf p0 := (value, (now + 3600)%Z)]> (store w)).
    { intros w0 Hw0.
      destruct (forward_store now redis_up bedrock (JString p) useCache (cacheKeyOf p) w0)
        as [Hsame | (fields & value & Huc & _ & Hb & Hf & Hv & Hr & Hst)].
      - left. cbv zeta. by rewrite Hsame.
      - right. exists p, fields, value. cbv zeta. rewrite Hst, Hw0. done. }
    rewrite Hp.
    destruct (truthy useCache); [| by apply Honward].
    destruct redis_up; [| by left].
    destruct (store w !! cacheKeyOf p) as [[value expiresAt]|]; [| by apply Honward].
    destruct (_ && _); [by left | by apply Honward].
Qed.

(** X19. When nothing is cached for the prompt and the Bedrock service
    answers the POST with an error status, the reply has that status and
    carries the service's error data (or "Error from Bedrock service"
    when the data is falsy); nothing is written to the store. *)
Theorem generate_relays_downstream_error now bedrock
    (req_body : gmap string JSON) (p : string) (w : World) (responseStatus : Z) (responseData : JSON) :
  req_body !! "prompt" = Some (JString p) -> p <> "" ->
  store w !! cacheKeyOf p = None ->
  bedrock {[ "prompt" := JString p ]} = Err (Some (responseStatus, responseData)) ->
  let r := generate now true bedrock req_body w in
  r.1 = Ok {| status := responseStatus;
              body := {[ "error" := if truthy responseData then responseData
                                    else JString "Error from Bedrock service" ]} |} /\
  store r.2 = store w /\
  AxiosPost {[ "prompt" := JString p ]} ∈ events r.2.
Proof.
  intros Hp Hne Hmiss Hb. cbv zeta.
  rewrite (generate_run _ _ _ _ _ _ Hp Hne). cbv zeta. rewrite Hmiss.
  assert (Honward : forall w0, store w0 = store w ->
    let r := try_catch (forward now true bedrock (JString p)
               (default (JBool true) (req_body !! "useCache")) (cacheKeyOf p)) on_error w0 in
    r.1 = Ok {| status := responseStatus;
                body := {[ "error" := if truthy responseData then responseData
                                      else JString "Error from Bedrock service" ]} |} /\
    store r.2 = store w /\
    AxiosPost {[ "prompt" := JString p ]} ∈ events r.2).
  { intros w0 Hw0. cbv zeta. rewrite forward_run. cbv zeta. rewrite Hb. cbn [fst snd].
    split; [done|]. split; [done|].
    cbn [record events]. apply elem_of_app. right. by left. }
  destruct (truthy (default (JBool true) (req_body !! "useCache"))); by apply Honward.
Qed.


Lemma get_cached_run now (key : string) (w : World) :
  get_cached now true key w =
  (Ok match store w !! key with
      | Some (value, expiresAt) =>
          if (now <? expiresAt)%Z && negb (String.eqb value "") then
            {| status := 200;
               body := {[ "cached" := JBool true; "response" := JString value ]} |}
          else key_not_found
      | None => key_not_found
      end, record (RedisGet key) w).
Proof.
  unfold get_cached, try_catch, redis_get, mbind, JS_bind, mret, JS_ret.
  cbn [record store].
  destruct (store w !! key) as [[value expiresAt]|]; [| reflexivity].
  destruct (now <? expiresAt)%Z; [| reflexivity].
  cbn [andb]. by destruct (negb (String.eqb value "")).
Qed.

(** An answered request that used the cache left its text in the store
    under the key named in the reply. *)
Lemma generate_stored now redis_up bedrock (req_body : gmap string JSON) (w w1 : World)
    (reply : Reply) (text key : string) :
  truthy (default (JBool true) (req_body !! "useCache")) = true ->
  generate now redis_up bedrock req_body w = (Ok reply, w1) ->
  body reply !! "response" = Some (JString text) ->
  text <> "" ->
  body reply !! "cacheKey" = Some (JString key) ->
  exists p expiresAt,
    req_body !! "prompt" = Some (JString p) /\ key = cacheKeyOf p /\
    store w1 !! key = Some (text, expiresAt) /\ (now < expiresAt)%Z.
Proof.
  intros Huc Hrun Hresp Htext Hkey.
  destruct (prompt_cases (req_body !! "prompt"))
    as [Hnone | [(v & Hp & Htruthy & Hkind) | (p & Hp & Hne)]].
  { rewrite generate_without_prompt in Hrun by done. injection Hrun as <- <-.
    cbn [body prompt_required] in Hresp. by rewrite error_body_lookup in Hresp. }
  { by rewrite (generate_not_a_string _ _ _ _ _ _ Hp Htruthy Hkind) in Hrun. }
  exists p.
  rewrite (generate_run _ _ _ _ _ _ Hp Hne) in Hrun. cbv zeta in Hrun. rewrite Huc in Hrun.
  assert (Honward : forall w0, store w0 = store w ->
    try_catch (forward now redis_up bedrock (JString p)
                 (default (JBool true) (req_body !! "useCache")) (cacheKeyOf p)) on_error w0 =
      (Ok reply, w1) ->
    exists expiresAt,
      req_body !! "prompt" = Some (JString p) /\ key = cacheKeyOf p /\
      store w1 !! key = Some (text, expiresAt) /\ (now < expiresAt)%Z).
  { intros w0 Hw0 Hfw. exists (now + 3600)%Z.
    pose proof (forward_cached _ _ _ _ _ _ _ _ _ _ Huc Hfw Hresp Htext) as Hst.
    apply forward_reply in Hfw as (reply' & [= <-] & [[_ [ai Hbody]] | [msg Hbody]]).
    - rewrite Hbody, generated_cacheKey in Hkey. injection Hkey as <-.
      split; [done|]. split; [done|]. rewrite Hst, lookup_insert_eq. split; [done | lia].
    - rewrite Hbody in Hresp. by rewrite error_body_lookup in Hresp. }
  destruct redis_up; last first.
  { injection Hrun as <- <-. cbn [body failed] in Hresp. by rewrite error_body_lookup in Hresp. }
  destruct (store w !! cacheKeyOf p) as [[value expiresAt]|] eqn:Hst;
    [| by apply (Honward (record (RedisGet (cacheKeyOf p)) w))].
  destruct ((now <? expiresAt)%Z && negb (String.eqb value "")) eqn:Hlive;
    [| by apply (Honward (record (RedisGet (cacheKeyOf p)) w))].
  injection Hrun as <- <-. cbn [body] in Hresp, Hkey.
  change (generated (Some (JString value)) true (cacheKeyOf p) !! "response" =
          Some (JString text)) in Hresp.
  change (generated (Some (JString value)) true (cacheKeyOf p) !! "cacheKey" =
          Some (JString key)) in Hkey.
  rewrite generated_response in Hresp. rewrite generated_cacheKey in Hkey.
  injection Hresp as ->. injection Hkey as <-.
  apply andb_true_iff in Hlive as [Hlive _]. apply Z.ltb_lt in Hlive.
  exists expiresAt. by repeat split.
Qed.

(** X20. The reply's [cacheKey] works with [GET /cache/:key]: after a
    request that used the cache was answered with a non-empty text,
    fetching the key named in the reply returns that text until the
    entry expires, and 404 "Key not found" from then on. *)
Theorem cached_answer_is_fetched_by_its_key now redis_up bedrock
    (req_body : gmap string JSON) (w w1 : World) (reply : Reply) (text key : string) :
  truthy (default (JBool true) (req_body !! "useCache")) = true ->
  generate now redis_up bedrock req_body w = (Ok reply, w1) ->
  body reply !! "response" = Some (JString text) ->
  text <> "" ->
  body reply !! "cacheKey" = Some (JString key) ->
  exists expiresAt,
    (now < expiresAt)%Z /\
    forall later,
      get_cached later true key w1 =
      (Ok (if (later <? expiresAt)%Z then
             {| status := 200;
                body := {[ "cached" := JBool true; "response" := JString text ]} |}
           else key_not_found),
       record (RedisGet key) w1).
Proof.
  intros Huc Hrun Hresp Htext Hkey.
  destruct (generate_stored _ _ _ _ _ _ _ _ _ Huc Hrun Hresp Htext Hkey)
    as (p & expiresAt & Hp & -> & Hst & Hlive).
  exists expiresAt. split; [done|].
  intros later. rewrite get_cached_run, Hst.
  apply String.eqb_neq in Htext. rewrite Htext. cbn [negb]. by rewrite andb_true_r.
Qed.

End CacheRoutes.

Section FlushFacts.
Import CacheService.

(** X21. [DELETE /cache] empties the store: afterwards every key is
    answered with 404, [/stats] reports a size of 0, and each prompt is
    posted to the Bedrock service again; clearing twice is clearing once.
    While the store cannot be reached the reply is 500 and nothing
    changes. *)
Theorem clear_cache_empties_the_store (w : World) :
  let w' := (clear_cache true w).2 in
  (clear_cache true w).1 =
    Ok {| status := 200; body := {[ "message" := JString "Cache cleared successfully" ]} |} /\
  (forall now key, (get_cached now true key w').1 = Ok key_not_found) /\
  (forall info,
     (stats true info w').1 =
     Ok {| status := 200;
           body := {[ "cacheSize" := JNumber (inject_Z 0); "info" := JString info ]} |}) /\
  (forall now bedrock (req_body : gmap string JSON) p,
     req_body !! "prompt" = Some (JString p) -> p <> "" ->
     AxiosPost {[ "prompt" := JString p ]} ∈ events (generate now true bedrock req_body w').2) /\
  (clear_cache true w').2 = w' /\
  clear_cache false w =
    (Ok {| status := 500; body := {[ "error" := JString "Failed to clear cache" ]} |}, w).
Proof.
  cbv zeta.
  assert (Hw' : (clear_cache true w).2 = {| store := ∅; events := events w |}) by done.
  rewrite Hw'.
  split; [done|]. split; [| split; [| split; [| split]]].
  - intros now key. rewrite get_cached_run. cbn [store fst]. by rewrite lookup_empty.
  - intros info. unfold stats, try_catch, redis_info, redis_dbSize, mbind, JS_bind, mret, JS_ret.
    cbn [store fst]. by rewrite map_size_empty.
  - intros now bedrock req_body p Hp Hne.
    rewrite (generate_run _ _ _ _ _ _ Hp Hne). cbv zeta. cbn [store]. rewrite lookup_empty.
    assert (Honward : forall w0,
      AxiosPost {[ "prompt" := JString p ]} ∈
        events (try_catch (forward now true bedrock (JString p)
                  (default (JBool true) (req_body !! "useCache")) (cacheKeyOf p))
                  on_error w0).2).
    { intros w0.
      destruct (forward_events now true bedrock (JString p)
                  (default (JBool true) (req_body !! "useCache")) (cacheKeyOf p) w0)
        as (tail & -> & _).
      apply elem_of_app. right. by left. }
    destruct (truthy _); apply Honward.
  - done.
  - done.
Qed.

End FlushFacts.

Section KeyFacts.
Import CacheService.
Local Open Scope Z_scope.

Lemma length_le_bytes (n : nat) (x : Z) : length (MD5.le_bytes n x) = n.
Proof. unfold MD5.le_bytes. by rewrite length_map, length_seq. Qed.

Lemma le_bytes_range (n : nat) (x : Z) :
  Forall (fun b => 0 <= b < 256) (MD5.le_bytes n x).
Proof.
  unfold MD5.le_bytes. apply Forall_forall. intros b Hb.
  apply list_elem_of_In, in_map_iff in Hb as (k & <- & _).
  apply Z.mod_pos_bound. lia.
Qed.

Lemma digest_length (bytes : list Z) : length (MD5.digest bytes) = 16%nat.
Proof.
  unfold MD5.digest. cbv zeta.
  destruct (MD5.chunks _ _ _) as [[[a b] c] d].
  by rewrite !length_app, !length_le_bytes.
Qed.

Lemma digest_range (bytes : list Z) : Forall (fun b => 0 <= b < 256) (MD5.digest bytes).
Proof.
  unfold MD5.digest. cbv zeta.
  destruct (MD5.chunks _ _ _) as [[[a b] c] d].
  rewrite !Forall_app. repeat split; apply le_bytes_range.
Qed.

Lemma hex_length (bytes : list Z) : String.length (MD5.hex bytes) = (2 * length bytes)%nat.
Proof. induction bytes as [|b rest IH]; simpl; [done | rewrite IH; lia]. Qed.

Lemma hex_digit_lower (x : Z) :
  0 <= x < 16 -> MD5.hex_digit x ∈ list_ascii_of_string "0123456789abcdef".
Proof.
  intros Hx.
  assert (Hcases : x = 0 \/ x = 1 \/ x = 2 \/ x = 3 \/ x = 4 \/ x = 5 \/ x = 6 \/ x = 7 \/
                   x = 8 \/ x = 9 \/ x = 10 \/ x = 11 \/ x = 12 \/ x = 13 \/ x = 14 \/ x = 15)
    by lia.
  clear Hx.
  repeat (destruct Hcases as [-> | Hcases]; [vm_compute; set_solver|]).
  subst x. vm_compute. set_solver.
Qed.

Lemma hex_chars (bytes : list Z) :
  Forall (fun b => 0 <= b < 256) bytes ->
  Forall (fun c => c ∈ list_ascii_of_string "0123456789abcdef")
    (list_ascii_of_string (MD5.hex bytes)).
Proof.
  induction 1 as [|b rest Hb _ IH]; [constructor|].
  cbn [MD5.hex list_ascii_of_string].
  constructor; [apply hex_digit_lower; split; [apply Z.div_pos; lia | apply Z.div_lt_upper_bound; lia]|].
  constructor; [apply hex_digit_lower; apply Z.mod_pos_bound; lia | done].
Qed.

(** X22. Whatever the prompt, its cache key is "prompt:" followed by 32
    lower-case hexadecimal digits, 39 characters in all. *)
Theorem cacheKeyOf_format (prompt : string) :
  exists digest,
    cacheKeyOf prompt = "prompt:" +:+ digest /\
    String.length digest = 32%nat /\
    Forall (fun c => c ∈ list_ascii_of_string "0123456789abcdef")
      (list_ascii_of_string digest) /\
    String.length (cacheKeyOf prompt) = 39%nat.
Proof.
  exists (MD5.md5_hex prompt).
  assert (Hlen : String.length (MD5.md5_hex prompt) = 32%nat).
  { unfold MD5.md5_hex. by rewrite hex_length, digest_length. }
  split; [done|]. split; [done|]. split.
  - unfold MD5.md5_hex. apply hex_chars, digest_range.
  - change (String.length (cacheKeyOf prompt))
      with (7 + String.length (MD5.md5_hex prompt))%nat.
    by rewrite Hlen.
Qed.

End KeyFacts.

(** ** The file picker *)

Section PickerFacts.
Import Frontend.
Variable toLowerCase : string -> string.

Abbreviation accepted :=
  (fun file : File => (size file <= 10485760)%Z /\ fileExt toLowerCase file ∈ validTypes).

Lemma checkFile_keep (file : File) :
  (checkFile toLowerCase file).2 = true <-> accepted file.
Proof.
  unfold checkFile, isValidSize, isValidType.
  destruct (Z.leb_spec (size file) (10 * 1024 * 1024)) as [Hle | Hgt]; cbn [negb].
  - destruct (bool_decide_reflect (fileExt toLowerCase file ∈ validTypes)) as [Hin | Hout];
      cbn [negb snd].
    + split; [intros _; split; [lia | done] | done].
    + split; [done | by intros [_ ?]].
  - cbn [snd]. split; [done | intros [? _]; lia].
Qed.

Lemma checkFile_alert (file : File) :
  (checkFile toLowerCase file).1 = None <-> (checkFile toLowerCase file).2 = true.
Proof.
  unfold checkFile. destruct (negb (isValidSize file)); [done|].
  by destruct (negb (isValidType toLowerCase file)).
Qed.

Lemma filterFiles_run (fileArray : list File) :
  filterFiles toLowerCase fileArray =
  (omap (fun file => (checkFile toLowerCase file).1) fileArray,
   filter accepted fileArray).
Proof.
  induction fileArray as [|file rest IH]; [done|].
  cbn [filterFiles omap list_omap]. rewrite IH, filter_cons.
  pose proof (checkFile_keep file) as Hkeep.
  pose proof (checkFile_alert file) as Halert.
  destruct (checkFile toLowerCase file) as [alert keep]. cbn [fst snd] in *.
  destruct keep.
  - rewrite decide_True by (by apply Hkeep).
    destruct alert as [text|]; [| done]. by destruct Halert as [_ Habs]; specialize (Habs eq_refl).
  - rewrite decide_False by (intros Hacc; apply Hkeep in Hacc; done).
    destruct alert as [text|]; [done|]. by destruct Halert as [Habs _]; specialize (Habs eq_refl).
Qed.

Lemma append_nil_r (s : string) : s +:+ "" = s.
Proof.
  induction s as [|c s IH]; [done|].
  change (String c s +:+ "") with (String c (s +:+ "")). by rewrite IH.
Qed.

Lemma append_snoc (current rest : string) (c : ascii) :
  (current +:+ String c EmptyString) +:+ rest = current +:+ String c rest.
Proof.
  induction current as [|d current IH]; [done|].
  change (String d ((current +:+ String c EmptyString) +:+ rest) =
          String d (current +:+ String c rest)).
  by rewrite IH.
Qed.

Lemma lastPiece_no_dot (current s : string) :
  (forall c, c ∈ list_ascii_of_string s -> c <> "."%char) ->
  lastPiece current s = current +:+ s.
Proof.
  revert current. induction s as [|c rest IH]; intros current Hnone.
  - by rewrite append_nil_r.
  - cbn [lastPiece].
    destruct (Ascii.eqb_spec c ".") as [-> | Hne].
    { exfalso. apply (Hnone "."%char); [by left | done]. }
    rewrite IH by (intros d Hd; apply Hnone; by right).
    apply append_snoc.
Qed.

(** X23. [handleFileSelect] appends to the files already picked those of
    the selected files that are at most 10 MB and whose extension is
    supported, in the order selected; every other selected file raises
    exactly one alert. The extension is what follows the last dot, so a
    name without a dot is its own extension. *)
Theorem handleFileSelect_keeps_valid_files (selectedFiles prev : list File) :
  let r := handleFileSelect toLowerCase selectedFiles prev in
  r.2 = prev ++ filter accepted selectedFiles /\
  (length r.1 + length r.2 = length prev + length selectedFiles)%nat /\
  (forall file, file ∈ r.2 ->
     file ∈ prev \/
     (file ∈ selectedFiles /\ (size file <= 10485760)%Z /\
      fileExt toLowerCase file ∈ validTypes)) /\
  (forall file,
     (forall c, c ∈ list_ascii_of_string (name file) -> c <> "."%char) ->
     fileExt toLowerCase file = "." +:+ toLowerCase (name file)).
Proof.
  cbv zeta. unfold handleFileSelect. rewrite filterFiles_run. cbn [fst snd].
  split; [done|]. split; [| split].
  - rewrite length_app.
    assert (Hcount : forall l : list File,
      (length (omap (fun file => (checkFile toLowerCase file).1) l) +
       length (filter accepted l) = length l)%nat).
    { induction l as [|file rest IH]; [done|].
      cbn [omap list_omap]. rewrite filter_cons.
      pose proof (checkFile_keep file) as Hkeep.
      pose proof (checkFile_alert file) as Halert.
      destruct (checkFile toLowerCase file) as [[text|] keep]; cbn [fst snd] in *.
      - rewrite decide_False; [cbn [length]; lia|].
        intros Hacc. apply Hkeep in Hacc. subst keep. by destruct Halert as [_ Habs]; specialize (Habs eq_refl).
      - rewrite decide_True; [cbn [length]; lia|].
        apply Hkeep. by apply Halert. }
    specialize (Hcount selectedFiles). lia.
  - intros file. rewrite elem_of_app, list_elem_of_filter. tauto.
  - intros file Hnone. unfold fileExt. by rewrite lastPiece_no_dot.
Qed.

Lemma filterIndex_past (start index : nat) (prev : list File) :
  (index < start)%nat -> filterIndex start index prev = prev.
Proof.
  revert start. induction prev as [|file rest IH]; intros start Hlt; [done|].
  cbn [filterIndex]. destruct (Nat.eqb_spec start index) as [-> | Hne]; [lia|].
  cbn [negb]. rewrite IH by lia. done.
Qed.

Lemma filterIndex_delete (start index : nat) (prev : list File) :
  (start <= index)%nat ->
  filterIndex start index prev = delete (index - start) prev.
Proof.
  revert start. induction prev as [|file rest IH]; intros start Hle; [done|].
  cbn [filterIndex]. destruct (Nat.eqb_spec start index) as [-> | Hne]; cbn [negb].
  - rewrite Nat.sub_diag. cbn [delete list_delete]. apply filterIndex_past. lia.
  - rewrite IH by lia. replace (index - start)%nat with (S (index - S start)) by lia. done.
Qed.

Lemma delete_out_of_range {A} (i : nat) (l : list A) :
  (length l <= i)%nat -> delete i l = l.
Proof.
  revert i. induction l as [|x l IH]; intros i Hi; [done|].
  destruct i as [|i]; simpl in *; [lia|]. rewrite IH; [done | lia].
Qed.

(** X24. [removeFile] drops the entry at the index and nothing else: an
    index within the list shortens it by one, an index past the end
    leaves it as it is, and removing at the old length undoes the
    selection of one file. *)
Theorem removeFile_deletes_one_entry (index : nat) (prev : list File) :
  removeFile index prev = delete index prev /\
  ((index < length prev)%nat -> length (removeFile index prev) = (length prev - 1)%nat) /\
  ((length prev <= index)%nat -> removeFile index prev = prev) /\
  (forall file,
     removeFile (length prev) (handleFileSelect toLowerCase [file] prev).2 = prev).
Proof.
  assert (Hdel : forall i l, removeFile i l = delete i l).
  { intros i l. unfold removeFile. rewrite filterIndex_delete by lia. by rewrite Nat.sub_0_r. }
  split; [apply Hdel|]. split; [| split].
  - intros Hlt. rewrite Hdel, length_delete; [done|]. by apply lookup_lt_is_Some.
  - intros Hge. rewrite Hdel. apply delete_out_of_range. lia.
  - intros file. rewrite Hdel. unfold handleFileSelect. rewrite filterFiles_run. cbn [snd].
    rewrite filter_cons, filter_nil.
    case_decide.
    + by rewrite delete_middle, app_nil_r.
    + rewrite app_nil_r. apply delete_out_of_range. lia.
Qed.

End PickerFacts.

(** ** Scenarios *)

Section Scenarios.
Import GoStrings Bedrock Examples.

Lemma descriptors_distinct : NoDup (ID <$> descriptors).
Proof. apply (bool_decide_unpack _). by vm_compute. Qed.

Lemma catalogue_distinct : NoDup (ID <$> catalogue).
Proof. apply (bool_decide_unpack _). by vm_compute. Qed.

(** With A unavailable and no preference the order is B, C; a preference
    that matches C's name, in any case, puts C first. *)
Lemma candidate_order_on_three_descriptors :
  selectModels ToLowerASCII descriptors "" = [modelB; modelC] /\
  selectModels ToLowerASCII descriptors "MODEL C" = [modelC; modelB].
Proof.
  split.
  - rewrite (selectModels_is_specCandidates ToLowerASCII descriptors "" descriptors_distinct).
    reflexivity.
  - rewrite (selectModels_is_specCandidates ToLowerASCII descriptors "MODEL C"
               descriptors_distinct).
    reflexivity.
Defined.

(** Before any probe every descriptor is unavailable: the request fails
    with "no available models found" and the client has made no call. *)
Example fresh_client_has_no_models :
  GenerateText ToLowerASCII marshal unmarshal no_credentials "hi" "" 0 0 fresh =
  (("", "", Some "no available models found"), fresh).
Proof. reflexivity. Qed.

(** Without credentials B and C both fail: the error returned is that of
    C, the last candidate. *)
Lemma last_error_without_credentials :
  exists final e,
    last (selectModels ToLowerASCII descriptors "") = Some final /\
    attempt marshal unmarshal no_credentials "hi" 2000 f0_7 final = Err e /\
    ("", "",
     Some "all available models failed. Last error: failed to retrieve credentials: static credentials are empty") =
    ("", "", Some ("all available models failed. Last error: " +:+ e)).
Proof.
  assert (Hrun : GenerateText ToLowerASCII marshal unmarshal no_credentials "hi" "" 0 0 abc =
    (("", "",
      Some "all available models failed. Last error: failed to retrieve credentials: static credentials are empty"),
     afterCalls [ {| ModelId := "vendor.model-b"; Body := "messages request" |};
                  {| ModelId := "vendor.model-c"; Body := "legacy request" |} ] abc))
    by reflexivity.
  destruct (GenerateText_terminal_failure ToLowerASCII marshal unmarshal no_credentials
              "hi" "" 0 0 abc _ _ _ _ Hrun) as (_ & _ & Hall & _).
  apply Hall; [discriminate | by repeat constructor].
Defined.

(** B is throttled and C answers with an empty completion: the result
    is a success whose text is empty. *)
Lemma empty_completion_is_a_success :
  GenerateText ToLowerASCII marshal unmarshal c_empty "hi" "" 0 0 abc =
  (("", "Model C", None),
   afterCalls [ {| ModelId := "vendor.model-b"; Body := "messages request" |};
                {| ModelId := "vendor.model-c"; Body := "legacy request" |} ] abc).
Proof. reflexivity. Qed.

(** B's body does not parse and C answers: the result is C's, and no
    flag has changed. *)
Example b_malformed_c_answers :
  GenerateText ToLowerASCII marshal unmarshal b_malformed "hi" "" 0 0 abc =
  (("Hello from C", "Model C", None),
   afterCalls [ {| ModelId := "vendor.model-b"; Body := "messages request" |};
                {| ModelId := "vendor.model-c"; Body := "legacy request" |} ] abc).
Proof. reflexivity. Qed.

(** B answers with an empty text: it is returned as B's result, and C is
    not tried. *)
Lemma blank_text_is_a_success :
  extractText modelB
    {[ "content" := JArray [JObject {[ "type" := JString "text"; "text" := JString "" ]}] ]} =
    Some "" /\
  GenerateText ToLowerASCII marshal unmarshal b_blank "hi" "" 0 0 abc =
  (("", "Model B", None),
   afterCalls [ {| ModelId := "vendor.model-b"; Body := "messages request" |} ] abc).
Proof. split; reflexivity. Qed.

(** A failure to load the configuration ends the fallback service. *)
Lemma load_failure_ends_the_process :
  Bedrock.main marshal no_credentials (Err "failed to resolve region") =
  Exited 1 "Failed to initialize Bedrock client: unable to load SDK config: failed to resolve region".
Proof. reflexivity. Qed.

(** In the single-model service the same failure leaves a nil client,
    and a request with a prompt then panics in [GenerateText]. *)
Example nil_client_panics :
  BedrockV1.main (Err "failed to resolve region") =
    (["Warning: Bedrock client initialization failed: unable to load SDK config: failed to resolve region";
      "Service will run but Bedrock calls will fail"], None) /\
  BedrockV1.generateHandler marshal unmarshal no_credentials None (Ok "hi") =
    BedrockV1.Panics "runtime error: invalid memory address or nil pointer dereference".
Proof. split; reflexivity. Qed.

Import CacheService.

(** The digest on the RFC's test strings and on both sides of the
    padding boundary (55 and 56 bytes). *)
Example md5_test_suite :
  MD5.md5_hex "" = "d41d8cd98f00b204e9800998ecf8427e" /\
  MD5.md5_hex "abc" = "900150983cd24fb0d6963f7d28e17f72" /\
  MD5.md5_hex "message digest" = "f96b697d7cb7938d525a2f31aaf161d0" /\
  MD5.md5_hex "The quick brown fox jumps over the lazy dog" =
    "9e107d9d372bb6826bd81d3542a419d6" /\
  MD5.md5_hex "aaaaaaaaaaaaaaaaaaaaaaaaaaaaaaaaaaaaaaaaaaaaaaaaaaaaaaa" =
    "ef1772b6dff9a122358552954ad0df65" /\
  MD5.md5_hex "aaaaaaaaaaaaaaaaaaaaaaaaaaaaaaaaaaaaaaaaaaaaaaaaaaaaaaaa" =
    "3b0c8ac703f828b04c6c197006d17218".
Proof. repeat split; by vm_compute. Qed.

Example cacheKeyOf_hello : cacheKeyOf "hello" = "prompt:5d41402abc4b2a76b9719d911017c592".
Proof. by vm_compute. Qed.

(** A first "hello" is generated and stored; a second one, half an hour
    later, is answered from the store whatever the Bedrock service would
    say. *)
Lemma second_hello_is_a_cache_hit :
  exists reply1 w1,
    generate 0 true (answers "Hi there") hello empty_world = (Ok reply1, w1) /\
    generate 1800 true (answers "Something else") hello_with_parameters w1 =
    (Ok {| status := 200;
           body := generated (Some (JString "Hi there")) true (cacheKeyOf "hello") |},
     record (RedisGet (cacheKeyOf "hello")) w1).
Proof.
  set (w1 := (generate 0 true (answers "Hi there") hello empty_world).2).
  assert (Hrun : generate 0 true (answers "Hi there") hello empty_world =
                 (Ok {| status := 200;
                        body := generated (Some (JString "Hi there")) false
                                  (cacheKeyOf "hello") |}, w1))
    by (by vm_compute).
  eexists _, w1. split; [exact Hrun|].
  destruct (repeated_prompt_is_served_from_cache 0 true (answers "Hi there") hello "hello"
              empty_world w1 _ "Hi there" eq_refl eq_refl Hrun eq_refl ltac:(discriminate))
    as (expiresAt & _ & _ & Hexp & Hagain).
  rewrite (Hexp eq_refl) in Hagain.
  apply Hagain; [reflexivity | reflexivity | lia].
Defined.

(** An empty answer is not stored: the same prompt goes to the Bedrock
    service again and the two replies differ. *)
Lemma empty_answer_is_generated_twice :
  let first := generate 0 true (answers "") hello empty_world in
  let second := generate 1 true (answers "Second answer") hello first.2 in
  first.1 = Ok {| status := 200;
                  body := generated (Some (JString "")) false (cacheKeyOf "hello") |} /\
  store first.2 = ∅ /\
  second.1 = Ok {| status := 200;
                   body := generated (Some (JString "Second answer")) false
                             (cacheKeyOf "hello") |} /\
  events second.2 =
    events first.2 ++ [ RedisGet (cacheKeyOf "hello"); AxiosPost hello;
                        RedisSetEx (cacheKeyOf "hello") 3600 "Second answer" ].
Proof. cbv zeta. repeat split; by vm_compute. Qed.

(** With the store down and the cache in use, the caller gets a 500 and
    the Bedrock service is never called. *)
Lemma unreachable_store_fails_the_request :
  generate 0 false (answers "Hi there") hello empty_world =
  (Ok failed, {| store := ∅; events := [RedisGet (cacheKeyOf "hello")] |}) /\
  status failed = 500%Z.
Proof. split; by vm_compute. Qed.

Lemma store_down_scenarios :
  generate 0 false (answers "Hi there") hello empty_world =
    (Ok failed, record (RedisGet (cacheKeyOf "hello")) empty_world) /\
  generate 0 false (answers "Hi there") (<["useCache" := JBool false]> hello) empty_world =
    generate 0 true (answers "Hi there") (<["useCache" := JBool false]> hello) empty_world.
Proof.
  split.
  - apply (generate_when_store_unreachable 0 (answers "Hi there") hello "hello" empty_world
             eq_refl ltac:(discriminate)); reflexivity.
  - apply (generate_when_store_unreachable 0 (answers "Hi there")
             (<["useCache" := JBool false]> hello) "hello" empty_world
             ltac:(by vm_compute) ltac:(discriminate)); reflexivity.
Defined.

(** A reply served from the cache, and one freshly generated by a service
    that named its model, both come without [model_used]. *)
Lemma cached_reply_lacks_model_used :
  let served := {| status := 200;
                   body := generated (Some (JString "Hi there")) true (cacheKeyOf "hello") |} in
  let made := {| status := 200;
                 body := generated (Some (JString "Hi there")) false (cacheKeyOf "hello") |} in
  (generate 10 true (answers "Other") hello warm_world).1 = Ok served /\
  body served !! "response" = Some (JString "Hi there") /\
  body served !! "model_used" = None /\
  (generate 0 true (answers "Hi there") hello empty_world).1 = Ok made /\
  body made !! "response" = Some (JString "Hi there") /\
  body made !! "model_used" = None.
Proof. cbv zeta. repeat split; by vm_compute. Qed.

(** An entry written at second 100 for an hour is gone at second 3700. *)
Lemma hour_old_entry_is_gone :
  (redis_get 3700 true "k" (redis_setEx 100 true "k" 3600 "v" empty_world).2).1 = Ok None /\
  (redis_get 3699 true "k" (redis_setEx 100 true "k" 3600 "v" empty_world).2).1 = Ok (Some "v").
Proof.
  destruct (cached_value_expires "k" "v" 3600 100 3700 empty_world ltac:(lia))
    as (_ & Hgone & _ & Hlive & _).
  split; [exact Hgone | apply Hlive; lia].
Defined.

(** [max_tokens], [temperature] and [model] change nothing. *)
Lemma parameters_do_not_change_the_request :
  generate 0 true (answers "Hi there") hello_with_parameters empty_world =
  generate 0 true (answers "Hi there") hello empty_world.
Proof.
  apply (generate_reads_prompt_and_useCache 0 true (answers "Hi there")
           hello_with_parameters hello empty_world); reflexivity.
Defined.

(** X7. In every state of the client while the server runs (the one
    [main] starts serving with, whatever the probes said, and the one
    left by any sequence of requests, whatever the runtime answered) the
    descriptors are the catalogue's nine, in the catalogue's order, with
    its ids, display names and formats: only the flags can differ. So the
    ids are distinct and the display names non-empty in each of them. *)
Theorem served_catalogue (ToLower : string -> string)
    (json_Marshal : gmap string JSON -> result string string)
    (json_Unmarshal : string -> result string (gmap string JSON)) (bc : BedrockClient) :
  Served ToLower json_Marshal json_Unmarshal bc ->
  (fun m => (ID m, Name m, MessageAPI m)) <$> availableModels bc =
    (fun m => (ID m, Name m, MessageAPI m)) <$> catalogue /\
  length (availableModels bc) = 9%nat /\
  NoDup (ID <$> availableModels bc) /\
  Forall (fun m => Name m <> "") (availableModels bc).
Proof.
  intros Hserved.
  assert (Hsame : (fun m => (ID m, Name m, MessageAPI m)) <$> availableModels bc =
                  (fun m => (ID m, Name m, MessageAPI m)) <$> catalogue).
  { induction Hserved as [runtime bc Hmain | bc _ IH | bc _ IH | runtime decoded bc _ IH].
    - revert Hmain. unfold Bedrock.main, NewBedrockClient. rewrite TestModelAvailability_run.
      intros [= <-]. reflexivity.
    - by rewrite healthHandler_run.
    - done.
    - by rewrite generateHandler_frame. }
  split; [exact Hsame|].
  assert (Hids : ID <$> availableModels bc = ID <$> catalogue).
  { apply (f_equal (fmap (fun t : string * string * bool => t.1.1))) in Hsame.
    by rewrite <- !list_fmap_compose in Hsame. }
  assert (Hnames : Name <$> availableModels bc = Name <$> catalogue).
  { apply (f_equal (fmap (fun t : string * string * bool => t.1.2))) in Hsame.
    by rewrite <- !list_fmap_compose in Hsame. }
  split; [| split].
  - apply (f_equal length) in Hids. by rewrite !length_fmap in Hids.
  - rewrite Hids. exact catalogue_distinct.
  - assert (Hall : Forall (fun name : string => name <> "") (Name <$> availableModels bc)).
    { rewrite Hnames. by repeat constructor. }
    apply Forall_forall. intros m Hm.
    eapply Forall_forall in Hall; [exact Hall|]. by apply list_elem_of_fmap_2.
Qed.

Lemma served_with_no_credentials :
  let started := {| client := probeInput marshal <$> catalogue;
                    availableModels := probed marshal no_credentials <$> catalogue |} in
  let bc := (generateHandler ToLowerASCII marshal unmarshal b_malformed
               (Ok {| Prompt := "hi"; MaxTokens := 0; Temperature := 0; Model := "" |})
               (healthHandler started).2).2 in
  Served ToLowerASCII marshal unmarshal bc /\
  (fun m => (ID m, Name m, MessageAPI m)) <$> availableModels bc =
    (fun m => (ID m, Name m, MessageAPI m)) <$> catalogue /\
  NoDup (ID <$> availableModels bc).
Proof.
  intros started bc.
  assert (Hserved : Served ToLowerASCII marshal unmarshal bc).
  { apply Served_generate, Served_health, (Served_main _ _ _ no_credentials). reflexivity. }
  split; [exact Hserved|].
  destruct (served_catalogue ToLowerASCII marshal unmarshal bc Hserved) as (Hsame & _ & Hnd & _).
  by split.
Defined.

Lemma b_and_c_payloads_differ :
  requestBody modelB "hi" 2000 f0_7 <> requestBody modelC "hi" 2000 f0_7.
Proof. apply (requestBody_shapes modelB modelC "hi" 2000 f0_7 eq_refl eq_refl). Defined.

Lemma c_answers_after_b_fails :
  tryModels marshal unmarshal b_malformed "hi" 2000 f0_7 [modelB; modelC] None abc =
  (("Hello from C", "Model C", None),
   afterCalls [ {| ModelId := "vendor.model-b"; Body := "messages request" |};
                {| ModelId := "vendor.model-c"; Body := "legacy request" |} ] abc).
Proof.
  apply (tryModels_stops_at_first_answer marshal unmarshal b_malformed "hi" 2000 f0_7
           [modelB] modelC [] None abc "Hello from C").
  - repeat constructor.
  - reflexivity.
Defined.


Lemma uncached_hello_leaves_the_store :
  store (generate 10 true (answers "Other") (<["useCache" := JBool false]> hello) warm_world).2 =
  store warm_world.
Proof.
  apply (generate_without_cache 10 true (answers "Other")
           (<["useCache" := JBool false]> hello) warm_world).
  by vm_compute.
Defined.

Lemma preference_moves_c_to_the_front :
  NoDup (ID <$> descriptors) /\
  selectModels ToLowerASCII descriptors "model c" ≡ₚ
    filter (fun m => Available m = true) descriptors /\
  selectModels ToLowerASCII descriptors "" = filter (fun m => Available m = true) descriptors.
Proof.
  split; [apply descriptors_distinct|].
  apply (preference_only_reorders ToLowerASCII descriptors "model c"), descriptors_distinct.
Defined.

Lemma preferred_c_answers_first :
  exists bodyBytes,
    marshal (requestBody modelC "hi" 2000 f0_7) = Ok bodyBytes /\
    GenerateText ToLowerASCII marshal unmarshal b_malformed "hi" "MODEL C" 0 0 abc =
    (("Hello from C", "Model C", None),
     afterCalls [{| ModelId := ID modelC; Body := bodyBytes |}] abc).
Proof.
  apply (preferred_model_is_tried_first ToLowerASCII marshal unmarshal b_malformed
           "hi" "MODEL C" 0 0 abc 2 modelC "Hello from C").
  - done.
  - by vm_compute.
  - by vm_compute.
Defined.

Lemma unknown_model_name_is_ignored :
  GenerateText ToLowerASCII marshal unmarshal b_malformed "hi" "gpt-4" 0 0 abc =
  GenerateText ToLowerASCII marshal unmarshal b_malformed "hi" "" 0 0 abc.
Proof.
  apply (unmatched_preference_is_ignored ToLowerASCII marshal unmarshal b_malformed
           "hi" "gpt-4" 0 0 abc).
  intros m Hm. cbn [abc availableModels descriptors] in Hm.
  repeat (apply elem_of_cons in Hm as [-> | Hm]; [by vm_compute|]).
  by apply elem_of_nil in Hm.
Defined.

Lemma v1_answers_with_a_placeholder :
  BedrockV1.GenerateText marshal unmarshal (replies "completion")
    (Some {| BedrockV1.client := tt |}) "hi" =
    BedrockV1.Returns ("Unable to generate response", None) /\
  ("hi" <> "" ->
   BedrockV1.generateHandler marshal unmarshal (replies "completion")
     (Some {| BedrockV1.client := tt |}) (Ok "hi") =
     BedrockV1.Returns (BedrockV1.HttpJSON "Unable to generate response")).
Proof.
  exact (V1_GenerateText_placeholder marshal unmarshal (replies "completion")
           {| BedrockV1.client := tt |} "hi" "messages request" "completion"
           {[ "completion" := JString "Hello from C" ]} modelB
           eq_refl ltac:(by vm_compute) eq_refl ltac:(by vm_compute)).
Defined.

Lemma overload_is_passed_on :
  let r := generate 1000 true overloaded hello empty_world in
  r.1 = Ok {| status := 503; body := {[ "error" := JString "upstream connect error" ]} |} /\
  store r.2 = store empty_world /\
  AxiosPost {[ "prompt" := JString "hello" ]} ∈ events r.2.
Proof.
  apply (generate_relays_downstream_error 1000 overloaded hello "hello" empty_world
           503 (JString "upstream connect error")).
  - by vm_compute.
  - done.
  - by vm_compute.
  - done.
Defined.

Lemma hello_is_fetched_by_its_key :
  exists expiresAt,
    (1000 < expiresAt)%Z /\
    forall later,
      get_cached later true (cacheKeyOf "hello")
        (generate 1000 true (answers "Hi there") hello empty_world).2 =
      (Ok (if (later <? expiresAt)%Z then
             {| status := 200;
                body := {[ "cached" := JBool true; "response" := JString "Hi there" ]} |}
           else key_not_found),
       record (RedisGet (cacheKeyOf "hello"))
         (generate 1000 true (answers "Hi there") hello empty_world).2).
Proof.
  apply (cached_answer_is_fetched_by_its_key 1000 true (answers "Hi there") hello empty_world
           (generate 1000 true (answers "Hi there") hello empty_world).2
           {| status := 200;
              body := generated (Some (JString "Hi there")) false (cacheKeyOf "hello") |}
           "Hi there" (cacheKeyOf "hello")).
  - by vm_compute.
  - by vm_compute.
  - by vm_compute.
  - done.
  - by vm_compute.
Defined.

End Scenarios.
